(** * Alerting dispatcher: a shallow embedding of
      [modules/aggregation/custom/alerting_dispatcher.py]

    The module reads a list of alert-dispatch rules from the process
    configuration, validates each rule field by field, fetches the pending
    alerts of the rule's groups from the alert queue, writes them to a
    temporary log file, sends one e-mail with that file attached and puts the
    alerts back into the queue when the delivery fails.

    Python values are a tagged union, dictionaries are association lists in
    insertion order (the order is visible through [str(alert.data)]), the
    interpreter state touched by the module (queue, standard output, the
    sequence of calls to the collaborators) is threaded explicitly through a
    small state-and-exception monad. *)

From Stdlib Require Import String Ascii List ZArith Bool Lia Permutation.
Import ListNotations.
Local Open Scope string_scope.
Local Open Scope list_scope.
Set Warnings "-register-all".

(** ** Python values *)

Module Py.

(** [datetime] objects are kept abstract: only [isoformat] is ever applied
    to them, and that method belongs to the host environment. *)
Record datetime := mkDatetime { epoch_micros : Z }.

(** The values that occur in a rule mapping, in an alert payload and in
    the template variables.  [PyBool] is separate from [PyInt] because
    [type(True) is int] is false.  [Alert] is the class of
    [service.alerting]: the module reads its attributes [date], [message]
    and [data]; the identity and the group of an alert are those of the
    data model of the specification (section 3). *)
Inductive PyVal : Type :=
| PyNone
| PyBool (b : bool)
| PyInt (z : Z)
| PyFloat (bits : Z)
| PyStr (s : string)
| PyList (items : list PyVal)
| PyDict (entries : list (string * PyVal))
| PyAlert (a : Alert)
with Alert : Type :=
| mkAlert (alert_id : Z) (group : string) (date : datetime)
          (message : string) (data : PyVal).

Definition dict := list (string * PyVal).

Definition alert_id (a : Alert) : Z := let 'mkAlert i _ _ _ _ := a in i.
Definition group (a : Alert) : string := let 'mkAlert _ g _ _ _ := a in g.
Definition date (a : Alert) : datetime := let 'mkAlert _ _ d _ _ := a in d.
Definition message (a : Alert) : string := let 'mkAlert _ _ _ m _ := a in m.
Definition data (a : Alert) : PyVal := let 'mkAlert _ _ _ _ d := a in d.

(** [d[k]] when [k in d]. *)
Fixpoint dict_get (k : string) (d : dict) : option PyVal :=
  match d with
  | [] => None
  | (k', v) :: rest => if String.eqb k k' then Some v else dict_get k rest
  end.

(** [d[k] = v]: an existing key keeps its position, a new key goes last. *)
Fixpoint dict_set (k : string) (v : PyVal) (d : dict) : dict :=
  match d with
  | [] => [(k, v)]
  | (k', v') :: rest =>
      if String.eqb k k' then (k', v) :: rest
      else (k', v') :: dict_set k v rest
  end.

(** [k in d and type(d[k]) is str], and the like, returning [d[k]]. *)
Definition get_str (d : dict) (k : string) : option string :=
  match dict_get k d with Some (PyStr s) => Some s | _ => None end.

Definition get_int (d : dict) (k : string) : option Z :=
  match dict_get k d with Some (PyInt z) => Some z | _ => None end.

Definition get_dict (d : dict) (k : string) : option dict :=
  match dict_get k d with Some (PyDict m) => Some m | _ => None end.

Definition get_list (d : dict) (k : string) : option (list PyVal) :=
  match dict_get k d with Some (PyList l) => Some l | _ => None end.

(** [k in d and (type(d[k]) is str or type(d[k]) is list)]. *)
Definition get_str_or_list (d : dict) (k : string) : option PyVal :=
  match dict_get k d with
  | Some (PyStr s) => Some (PyStr s)
  | Some (PyList l) => Some (PyList l)
  | _ => None
  end.

(** [s == v] for a string [s]. *)
Definition str_eq (s : string) (v : PyVal) : bool :=
  match v with PyStr s' => String.eqb s s' | _ => false end.

(** [sub in s] on strings. *)
Definition str_contains (sub s : string) : bool :=
  match String.index 0 sub s with Some _ => true | None => false end.

Definition quote : string := String (ascii_of_nat 34) EmptyString.
Definition newline : string := String (ascii_of_nat 10) EmptyString.
Definition carriage_return : string := String (ascii_of_nat 13) EmptyString.

(** What a file opened in text mode with the default [newline=None] holds
    after [write(s)]: every line feed of [s] is written as the line
    separator of the host, [os.linesep]; the other characters pass through. *)
Fixpoint text_layer (separator : string) (s : string) : string :=
  match s with
  | EmptyString => EmptyString
  | String c rest =>
      if Ascii.eqb c (ascii_of_nat 10)
      then (separator ++ text_layer separator rest)%string
      else String c (text_layer separator rest)
  end.

End Py.
Import Py.

(** ** Exceptions *)

(** What the transport ([service.email.Dispatcher]) can raise: the built-in
    [ConnectionError] family, its own [DispatcherException], or anything
    else.  Each carries [str(error)]. *)
Inductive TransportError : Type :=
| ConnectionError (text : string)
| DispatcherException (text : string)
| OtherError (cls text : string).

Definition str_of_error (e : TransportError) : string :=
  match e with
  | ConnectionError t => t
  | DispatcherException t => t
  | OtherError _ t => t
  end.

(** The exceptions that can leave a method of the module.
    [_DataAlreadyExistError] is private to the module, so no collaborator
    raises it: transport failures enter through [Raised]. *)
Inductive Exn : Type :=
| ConfigurationMissingError (text : string)
| ConfigurationInvalidError (text : string)
| _DataAlreadyExistError
| TypeError
| Raised (e : TransportError).

(** ** The collaborators *)

(** [service.alerting.AlertQueue] is not part of the sources; the queue is
    the list of the pending alerts in insertion order. *)
Module AlertQueue.

Definition store := list Alert.

(** ['g' in groups] for the group of an alert. *)
Definition in_groups (groups : list PyVal) (a : Alert) : bool :=
  existsb (str_eq (group a)) groups.

(** Modelled from the spec: [AlertQueue.fetch_alerts], absent from the
    sources.  Section 4.2: returns and removes all pending alerts whose
    group is in [groups], across all matching groups, in the insertion order
    of the store. *)
Definition fetch_alerts (groups : list PyVal) (q : store) : list Alert * store :=
  partition (in_groups groups) q.

(** Modelled from the spec: [AlertQueue.add_alerts], absent from the
    sources.  Section 4.2 (requeue): reinserts the alerts it is given, all of
    them, with their identity and content. *)
Definition add_alerts (alerts : list Alert) (q : store) : store :=
  q ++ alerts.

End AlertQueue.

(** The connection parameters given to [Dispatcher(...)]. *)
Record Dispatcher := mkDispatcher {
  smtp_host : string;
  smtp_port : Z;
  smtp_user : string;
  smtp_password : string;
  smtp_encryption : option string
}.

(** The three send operations of the transport with their arguments.  The
    text-only operation receives the variable [template_text_path] whatever
    it holds, [None] included. *)
Inductive SendCall : Type :=
| send_text_email (from_email : string) (to_email : PyVal) (subject : string)
    (template_text_path : option string) (variables : dict)
    (attachments : list (string * string))
| send_html_email (from_email : string) (to_email : PyVal) (subject : string)
    (template_html_path : string) (variables : dict)
    (attachments : list (string * string))
| send_email (from_email : string) (to_email : PyVal) (subject : string)
    (template_html_path template_text_path : string) (variables : dict)
    (attachments : list (string * string)).

Definition variables_of (c : SendCall) : dict :=
  match c with
  | send_text_email _ _ _ _ v _ => v
  | send_html_email _ _ _ _ v _ => v
  | send_email _ _ _ _ _ v _ => v
  end.

Definition attachments_of (c : SendCall) : list (string * string) :=
  match c with
  | send_text_email _ _ _ _ _ a => a
  | send_html_email _ _ _ _ _ a => a
  | send_email _ _ _ _ _ _ a => a
  end.

(** Calls that leave the module, in the order they happen. *)
Inductive Event : Type :=
| EvFetch (groups : list PyVal) (found : list Alert)
| EvLogOpened (name : string)
| EvLogFlushed (name : string) (content : string)
| EvLogRemoved (name : string)
| EvConnect (d : Dispatcher)
| EvSend (d : Dispatcher) (c : SendCall)
| EvClose (d : Dispatcher)
| EvRequeue (alerts : list Alert).

(** The state the module works on. *)
Record World := mkWorld {
  alert_queue : AlertQueue.store;
  events : list Event;
  stdout : list string;
  bigquery : bool
}.

(** The host environment: everything the module calls and does not define.
    The outcomes of the transport and the clock may depend on what has
    happened before. *)
Record Env := mkEnv {
  isoformat : datetime -> string;
  py_str : PyVal -> string;
  linesep : string;
  temp_name : list Event -> string;
  connect_outcome : list Event -> Dispatcher -> option TransportError;
  send_outcome : list Event -> Dispatcher -> SendCall -> option TransportError;
  time : list Event -> Z;
  timedelta_str : Z -> string
}.

(** ** State and exceptions *)

Definition M (A : Type) : Type := World -> (Exn + A) * World.

Definition ret {A} (a : A) : M A := fun w => (inr a, w).

Definition bind {A B} (m : M A) (k : A -> M B) : M B :=
  fun w =>
    match m w with
    | (inr a, w') => k a w'
    | (inl e, w') => (inl e, w')
    end.

Definition raise {A} (e : Exn) : M A := fun w => (inl e, w).

Definition lift {A} (r : Exn + A) : M A := fun w => (r, w).

(** [try: body except <classes selected by handler>: ...]. *)
Definition try_except {A} (body : M A) (handler : Exn -> option (M A)) : M A :=
  fun w =>
    match body w with
    | (inr a, w') => (inr a, w')
    | (inl e, w') =>
        match handler e with
        | Some h => h w'
        | None => (inl e, w')
        end
    end.

Declare Scope py_scope.
Delimit Scope py_scope with py.
Notation "x <- m ;; k" := (bind m (fun x => k))
  (at level 61, m at next level, right associativity) : py_scope.
Notation "m ;; k" := (bind m (fun _ => k))
  (at level 61, right associativity) : py_scope.

Definition emit (e : Event) : M unit :=
  fun w => (inr tt, mkWorld (alert_queue w) (events w ++ [e]) (stdout w) (bigquery w)).

Definition print (line : string) : M unit :=
  fun w => (inr tt, mkWorld (alert_queue w) (events w) (stdout w ++ [line]) (bigquery w)).

(** [self.alert_queue.fetch_alerts(groups)]. *)
Definition fetch_alerts (groups : list PyVal) : M (list Alert) :=
  fun w =>
    let (found, rest) := AlertQueue.fetch_alerts groups (alert_queue w) in
    (inr found,
     mkWorld rest (events w ++ [EvFetch groups found]) (stdout w) (bigquery w)).

(** [self.alert_queue.add_alerts(alerts)]. *)
Definition add_alerts (alerts : list Alert) : M unit :=
  fun w =>
    (inr tt,
     mkWorld (AlertQueue.add_alerts alerts (alert_queue w))
             (events w ++ [EvRequeue alerts]) (stdout w) (bigquery w)).

(** ** Validation of an e-mail rule *)

(** The local variables of [_process_email_configuration] once the checks of
    lines 59 to 120 have passed. *)
Record EmailRule := mkEmailRule {
  host : string;
  port : Z;
  user : string;
  password : string;
  encryption : option string;
  subject : string;
  from_email : string;
  to_email : PyVal;
  template_html_path : option string;
  template_text_path : option string;
  template_variables : dict;
  groups : list PyVal
}.

Declare Scope exc_scope.
Delimit Scope exc_scope with exc.
Notation "x <- m ;; k" :=
  (match m with inr x => k | inl e => inl e end)
  (at level 61, m at next level, right associativity) : exc_scope.

(** [if <check>: x = ... else: raise e]. *)
Definition or_raise {A} (checked : option A) (e : Exn) : Exn + A :=
  match checked with
  | Some a => inr a
  | None => inl e
  end.

(** Lines 59 to 120 of [_process_email_configuration]: every check before
    the first call to a collaborator. *)
Definition validate_email_configuration (configuration : dict) : Exn + EmailRule :=
  (smtp_configuration <-
     or_raise (get_dict configuration "smtp")
       (ConfigurationMissingError "Missing smtp configuration") ;;
   host <-
     or_raise (get_str smtp_configuration "host")
       (ConfigurationMissingError "Missing host in alert mail smtp configuration") ;;
   port <-
     or_raise (get_int smtp_configuration "port")
       (ConfigurationMissingError "Missing port in alert mail smtp configuration") ;;
   user <-
     or_raise (get_str smtp_configuration "user")
       (ConfigurationMissingError "Missing user in alert mail smtp configuration") ;;
   password <-
     or_raise (get_str smtp_configuration "password")
       (ConfigurationMissingError "Missing user in alert mail smtp configuration") ;;
   let encryption := get_str smtp_configuration "encryption" in
   subject <-
     or_raise (get_str configuration "subject")
       (ConfigurationMissingError "Missing subject in alert configuration") ;;
   from_email <-
     or_raise (get_str configuration "fromEmail")
       (ConfigurationMissingError "Missing from email in alert configuration") ;;
   to_email <-
     or_raise (get_str_or_list configuration "toEmail")
       (ConfigurationMissingError "Missing to email in alert configuration") ;;
   let template_html_path := get_str configuration "templateHtml" in
   let template_text_path := get_str configuration "templateText" in
   _ <-
     match template_html_path, template_text_path with
     | None, None =>
         inl (ConfigurationMissingError
                "You at least have to provide a html or text email template")
     | _, _ => inr tt
     end ;;
   let template_variables :=
     match get_dict configuration "templateVariables" with
     | Some d => d
     | None => []
     end in
   groups <-
     or_raise (get_list configuration "groups")
       (ConfigurationMissingError "Missing groups to fetch alerts for") ;;
   inr (mkEmailRule host port user password encryption subject from_email
          to_email template_html_path template_text_path template_variables
          groups))%exc.

(** ** Processing of a rule *)

Section AlertingDispatcher.

Variable env : Env.

Local Open Scope py_scope.

(** Lines 129 to 136: the text of one alert in the log file. *)
Definition log_item (alert : Alert) : string :=
  let log_item := "[" in
  let log_item := (log_item ++ isoformat env (date alert))%string in
  let log_item := (log_item ++ "] ")%string in
  let log_item := (log_item ++ message alert)%string in
  match data alert with
  | PyDict (_ :: _) =>
      let log_item := (log_item ++ " | ")%string in
      (log_item ++ py_str env (data alert))%string
  | _ => log_item
  end.

(** [log_file.write(s)] on the file of line 127, opened with mode ['w+t']:
    [s] goes through the text layer and is appended to what the file holds. *)
Definition log_file_write (written s : string) : string :=
  (written ++ text_layer (linesep env) s)%string.

(** Lines 128 to 138: the loop writing to [log_file], which holds [written]
    so far. *)
Fixpoint write_alerts (alerts : list Alert) (written : string) : string :=
  match alerts with
  | [] => written
  | alert :: rest =>
      write_alerts rest
        (log_file_write written (log_item alert ++ linesep env)%string)
  end.

(** [with NamedTemporaryFile(mode='w+t', suffix='.log') as log_file]: the
    file is removed when the block is left, whatever the outcome. *)
Definition with_log_file {A} (body : string -> M A) : M A :=
  fun w =>
    let name := temp_name env (events w) in
    let (r, w') := (emit (EvLogOpened name) ;; body name) w in
    (r, snd (emit (EvLogRemoved name) w')).

(** Modelled from the spec: the scope of [service.email.Dispatcher], absent
    from the sources, in
    [with Dispatcher(host, port, user, password, encryption) as dispatcher].
    Section 4.4: a scoped connection, closed on all exit paths once it is
    open; whether opening fails is up to the environment, and an exception
    of the block leaves the block. *)
Definition with_dispatcher {A} (d : Dispatcher) (body : M A) : M A :=
  fun w =>
    let w1 := snd (emit (EvConnect d) w) in
    match connect_outcome env (events w) d with
    | Some e => (inl (Raised e), w1)
    | None => let (r, w2) := body w1 in (r, snd (emit (EvClose d) w2))
    end.

(** One of [dispatcher.send_text_email], [send_html_email], [send_email]:
    the call is recorded and its outcome is up to the environment. *)
Definition send (d : Dispatcher) (c : SendCall) : M unit :=
  fun w =>
    let w1 := snd (emit (EvSend d c) w) in
    match send_outcome env (events w) d c with
    | Some e => (inl (Raised e), w1)
    | None => (inr tt, w1)
    end.

(** The classes named by [except (ConnectionError, DispatcherException)]. *)
Definition delivery_error (e : Exn) : option TransportError :=
  match e with
  | Raised (ConnectionError t) => Some (ConnectionError t)
  | Raised (DispatcherException t) => Some (DispatcherException t)
  | _ => None
  end.

(** Lines 144 to 170: the send operation chosen from the templates.  The
    first branch passes [template_text_path] as it stands. *)
Definition send_call (rule : EmailRule) (template_variables : dict)
    (log_file_name : string) : SendCall :=
  let attachments := [("alerts.log", log_file_name)] in
  match template_html_path rule with
  | None =>
      send_text_email (from_email rule) (to_email rule) (subject rule)
        (template_text_path rule) template_variables attachments
  | Some html =>
      match template_text_path rule with
      | None =>
          send_html_email (from_email rule) (to_email rule) (subject rule)
            html template_variables attachments
      | Some text =>
          send_email (from_email rule) (to_email rule) (subject rule)
            html text template_variables attachments
      end
  end.

(** Lines 122 to 173 of [_process_email_configuration].  The content
    recorded for the log file is what the file holds at [log_file.flush()].
    When the rule has a [templateVariables] mapping,
    line 125 writes into that very mapping; the module never reads the
    entry back before writing it again, so the rule is not threaded on. *)
Definition dispatch_alerts (rule : EmailRule) : M unit :=
  alerts <- fetch_alerts (groups rule) ;;
  if (0 <? length alerts)%nat then
    let template_variables :=
      dict_set "alerts" (PyList (map PyAlert alerts)) (template_variables rule) in
    with_log_file (fun log_file_name =>
      emit (EvLogFlushed log_file_name (write_alerts alerts EmptyString)) ;;
      try_except
        (let dispatcher :=
           mkDispatcher (host rule) (port rule) (user rule) (password rule)
             (encryption rule) in
         with_dispatcher dispatcher
           (send dispatcher
              (send_call rule template_variables log_file_name)))
        (fun e =>
           match delivery_error e with
           | Some error =>
               Some (add_alerts alerts ;;
                     raise (ConfigurationInvalidError (str_of_error error)))
           | None => None
           end))
  else ret tt.

Definition _process_email_configuration (configuration : dict) : M unit :=
  rule <- lift (validate_email_configuration configuration) ;;
  dispatch_alerts rule.

(** ['type' in configuration and type(configuration['type']) is str] for an
    element of the rule list, which need not be a mapping: membership is
    key lookup on a mapping, substring search on a string, comparison with
    the items on a list, and a [TypeError] on anything else; subscripting a
    string or a list by ['type'] is a [TypeError] too. *)
Definition type_of_rule (configuration : PyVal) : Exn + option string :=
  match configuration with
  | PyDict d => inr (get_str d "type")
  | PyStr s => if str_contains "type" s then inl TypeError else inr None
  | PyList l => if existsb (str_eq "type") l then inl TypeError else inr None
  | _ => inl TypeError
  end.

(** Lines 43 to 52. *)
Definition _process_configuration (configuration : PyVal) : M unit :=
  checked <- lift (type_of_rule configuration) ;;
  match checked with
  | Some alert_type =>
      if String.eqb "email" alert_type then
        match configuration with
        | PyDict d => _process_email_configuration d
        | _ => raise TypeError
        end
      else
        raise (ConfigurationInvalidError
                 ("Invalid alert type " ++ quote ++ alert_type ++ quote))
  | None =>
      raise (ConfigurationMissingError
               ("Missing " ++ quote ++ "type" ++ quote
                  ++ " for alert dispatch configuration"))
  end.

(** The module's part of the process configuration. *)
Record ModuleConfiguration := mkModuleConfiguration {
  database : string;
  settings : dict
}.

(** Lines 34 to 39: the loop over the rules. *)
Fixpoint run_configurations (configurations : list PyVal) : M unit :=
  match configurations with
  | [] => ret tt
  | configuration :: rest =>
      try_except
        (_process_configuration configuration ;; print " - OK")
        (fun e =>
           match e with
           | _DataAlreadyExistError => Some (print " - EXISTS")
           | _ => None
           end) ;;
      run_configurations rest
  end.

Definition now : M Z := fun w => (inr (time env (events w)), w).

Definition bind_bigquery : M unit :=
  fun w => (inr tt, mkWorld (alert_queue w) (events w) (stdout w) true).

(** Lines 25 to 41. *)
Definition run (module_configuration : ModuleConfiguration) : M unit :=
  print "Running Alerting Dispatcher Module:" ;;
  timer_run <- now ;;
  (if String.eqb "bigquery" (database module_configuration)
   then bind_bigquery else ret tt) ;;
  match get_list (settings module_configuration) "configurations" with
  | Some configurations => run_configurations configurations
  | None => ret tt
  end ;;
  finished <- now ;;
  print (newline ++ "completed: " ++ timedelta_str env (finished - timer_run)).

End AlertingDispatcher.

(** ** Vocabulary of the statements *)

(** The required fields of an e-mail rule, in the order in which the
    specification says they are validated. *)
Inductive EmailField : Type :=
| F_smtp
| F_smtp_host
| F_smtp_port
| F_smtp_user
| F_smtp_password
| F_subject
| F_fromEmail
| F_toEmail
| F_templates
| F_groups.

Definition required_fields_in_order : list EmailField :=
  [F_smtp; F_smtp_host; F_smtp_port; F_smtp_user; F_smtp_password;
   F_subject; F_fromEmail; F_toEmail; F_templates; F_groups].

Definition is_some {A} (o : option A) : bool :=
  match o with Some _ => true | None => false end.

Definition smtp_of (configuration : dict) : dict :=
  match get_dict configuration "smtp" with Some d => d | None => [] end.

(** A field is in order when it is present with the type of the data model:
    strings, an integer port, a string or a list for [toEmail], at least one
    template, a list for [groups]. *)
Definition field_present (configuration : dict) (f : EmailField) : bool :=
  match f with
  | F_smtp => is_some (get_dict configuration "smtp")
  | F_smtp_host => is_some (get_str (smtp_of configuration) "host")
  | F_smtp_port => is_some (get_int (smtp_of configuration) "port")
  | F_smtp_user => is_some (get_str (smtp_of configuration) "user")
  | F_smtp_password => is_some (get_str (smtp_of configuration) "password")
  | F_subject => is_some (get_str configuration "subject")
  | F_fromEmail => is_some (get_str configuration "fromEmail")
  | F_toEmail => is_some (get_str_or_list configuration "toEmail")
  | F_templates =>
      is_some (get_str configuration "templateHtml")
      || is_some (get_str configuration "templateText")
  | F_groups => is_some (get_list configuration "groups")
  end.

(** The text raised for each field (the texts are those of the source). *)
Definition field_error (f : EmailField) : Exn :=
  ConfigurationMissingError
    match f with
    | F_smtp => "Missing smtp configuration"
    | F_smtp_host => "Missing host in alert mail smtp configuration"
    | F_smtp_port => "Missing port in alert mail smtp configuration"
    | F_smtp_user => "Missing user in alert mail smtp configuration"
    | F_smtp_password => "Missing user in alert mail smtp configuration"
    | F_subject => "Missing subject in alert configuration"
    | F_fromEmail => "Missing from email in alert configuration"
    | F_toEmail => "Missing to email in alert configuration"
    | F_templates => "You at least have to provide a html or text email template"
    | F_groups => "Missing groups to fetch alerts for"
    end.

(** Fail-fast validation as the specification words it: the first required
    field, in order, that is missing or mistyped. *)
Definition first_missing_field (configuration : dict) : option EmailField :=
  find (fun f => negb (field_present configuration f)) required_fields_in_order.

(** The line of one alert as the specification words it. *)
Definition is_nonempty_mapping (v : PyVal) : bool :=
  match v with
  | PyDict entries => (0 <? length entries)%nat
  | _ => false
  end.

Definition spec_log_line (env : Env) (alert : Alert) : string :=
  ("[" ++ isoformat env (date alert) ++ "] " ++ message alert
   ++ (if is_nonempty_mapping (data alert)
       then " | " ++ py_str env (data alert)
       else EmptyString))%string.

Definition spec_attachment (env : Env) (alerts : list Alert) : string :=
  String.concat EmptyString
    (map (fun alert => (spec_log_line env alert ++ linesep env)%string) alerts).

(** What the trace says about the transport and the queue. *)
Definition sends (evs : list Event) : list (Dispatcher * SendCall) :=
  flat_map (fun e => match e with EvSend d c => [(d, c)] | _ => [] end) evs.

Definition requeues (evs : list Event) : list (list Alert) :=
  flat_map (fun e => match e with EvRequeue l => [l] | _ => [] end) evs.

Definition fetches (evs : list Event) : list (list PyVal) :=
  flat_map (fun e => match e with EvFetch g _ => [g] | _ => [] end) evs.

Definition log_files (evs : list Event) : list (string * string) :=
  flat_map (fun e => match e with EvLogFlushed n c => [(n, c)] | _ => [] end) evs.

(** The pieces of one delivery attempt for [rule] started in the world [w]
    when the fetch returned [alerts]. *)
Section Attempt.

Variables (env : Env) (w : World) (rule : EmailRule) (alerts : list Alert).

Definition rule_dispatcher : Dispatcher :=
  mkDispatcher (host rule) (port rule) (user rule) (password rule)
    (encryption rule).

Definition sent_variables : dict :=
  dict_set "alerts" (PyList (map PyAlert alerts)) (template_variables rule).

Definition log_name : string :=
  temp_name env (events w ++ [EvFetch (groups rule) alerts]).

Definition log_events : list Event :=
  [EvFetch (groups rule) alerts;
   EvLogOpened log_name;
   EvLogFlushed log_name (write_alerts env alerts EmptyString)].

Definition attempted_call : SendCall :=
  send_call rule sent_variables log_name.

Definition connected : bool :=
  negb (is_some (connect_outcome env (events w ++ log_events) rule_dispatcher)).

(** The exception that leaves the [with Dispatcher(...)] block, if any:
    raised when the connection is opened or by the send operation. *)
Definition transport_outcome : option TransportError :=
  match connect_outcome env (events w ++ log_events) rule_dispatcher with
  | Some e => Some e
  | None =>
      send_outcome env (events w ++ log_events ++ [EvConnect rule_dispatcher])
        rule_dispatcher attempted_call
  end.

Definition transport_events : list Event :=
  EvConnect rule_dispatcher ::
  (if connected
   then [EvSend rule_dispatcher attempted_call; EvClose rule_dispatcher]
   else []).

End Attempt.

(** The rule list [run] iterates over, and the lines it prints around it. *)
Definition configured_rules (module_configuration : ModuleConfiguration)
  : list PyVal :=
  match get_list (settings module_configuration) "configurations" with
  | Some configurations => configurations
  | None => []
  end.

Definition running_line : string := "Running Alerting Dispatcher Module:".

Definition completed_line (env : Env) (started finished : World) : string :=
  newline ++ "completed: "
    ++ timedelta_str env (time env (events finished) - time env (events started)).

(** A fetch that found nothing. *)
Definition is_empty_fetch (e : Event) : Prop :=
  exists requested, e = EvFetch requested [].

(** An element of the rule list that is an e-mail rule passing validation. *)
Definition valid_email_rule (configuration : PyVal) : Prop :=
  exists d rule,
    configuration = PyDict d /\
    get_str d "type" = Some "email" /\
    validate_email_configuration d = inr rule.

(** ** Sample data *)

Definition sample_smtp : dict :=
  [("host", PyStr "smtp.example.org"); ("port", PyInt 587);
   ("user", PyStr "monitor"); ("password", PyStr "secret")].

Definition sample_rule_with (smtp : dict) (templates : dict) (groups : list PyVal)
  : dict :=
  [("type", PyStr "email"); ("smtp", PyDict smtp);
   ("subject", PyStr "Alerts"); ("fromEmail", PyStr "dawis@example.org");
   ("toEmail", PyStr "ops@example.org")]
  ++ templates ++ [("groups", PyList groups)].

Definition sample_rule : dict :=
  sample_rule_with sample_smtp [("templateText", PyStr "alerts.txt")]
    [PyStr "g1"].

Definition sample_alert (i : Z) (m : string) (d : dict) : Alert :=
  mkAlert i "g1" (mkDatetime i) m (PyDict d).

Definition sample_queue : list Alert :=
  [sample_alert 1 "m1" []; sample_alert 2 "m2" [("k", PyStr "v")];
   sample_alert 3 "m3" []].

Definition sample_env (sending : option TransportError) : Env :=
  mkEnv (fun d => if (epoch_micros d =? 1)%Z then "T1" else "T2")
        (fun _ => "{'k': 'v'}")
        newline
        (fun _ => "/tmp/tmpq3x8.log")
        (fun _ _ => None)
        (fun _ _ _ => sending)
        (fun _ => 0%Z)
        (fun _ => "0:00:00").

Definition sample_world (q : list Alert) : World := mkWorld q [] [] false.

(** [sample_rule] once validated. *)
Definition sample_email_rule : EmailRule :=
  mkEmailRule "smtp.example.org" 587 "monitor" "secret" None "Alerts"
    "dawis@example.org" (PyStr "ops@example.org") None (Some "alerts.txt")
    [] [PyStr "g1"].

(** A rule whose smtp mapping lacks only the password, and one that lacks
    only the user. *)
Definition rule_without_password : dict :=
  sample_rule_with
    [("host", PyStr "smtp.example.org"); ("port", PyInt 587);
     ("user", PyStr "monitor")]
    [("templateText", PyStr "alerts.txt")] [PyStr "g1"].

Definition rule_without_user : dict :=
  sample_rule_with
    [("host", PyStr "smtp.example.org"); ("port", PyInt 587);
     ("password", PyStr "secret")]
    [("templateText", PyStr "alerts.txt")] [PyStr "g1"].

(** A rule whose list of groups is empty. *)
Definition rule_empty_groups : dict :=
  sample_rule_with sample_smtp [("templateText", PyStr "alerts.txt")] [].

(** Rules with no template and with both, the latter with template
    variables that already hold a value under ["alerts"]. *)
Definition rule_no_template : dict :=
  sample_rule_with sample_smtp [] [PyStr "g1"].

Definition rule_both_templates : dict :=
  sample_rule_with sample_smtp
    [("templateHtml", PyStr "alerts.html"); ("templateText", PyStr "alerts.txt");
     ("templateVariables",
      PyDict [("alerts", PyStr "stale"); ("site", PyStr "example.org")])]
    [PyStr "g1"].

Definition both_templates_email_rule : EmailRule :=
  mkEmailRule "smtp.example.org" 587 "monitor" "secret" None "Alerts"
    "dawis@example.org" (PyStr "ops@example.org") (Some "alerts.html")
    (Some "alerts.txt")
    [("alerts", PyStr "stale"); ("site", PyStr "example.org")] [PyStr "g1"].

(** Rules without a usable type and with an unknown one. *)
Definition rule_type_missing : dict := [("subject", PyStr "Alerts")].

Definition rule_type_number : dict := [("type", PyInt 3); ("smtp", PyDict sample_smtp)].

Definition rule_type_sms : dict := [("type", PyStr "sms"); ("smtp", PyInt 0)].

Definition sample_module (rules : list PyVal) : ModuleConfiguration :=
  mkModuleConfiguration "mongodb" [("configurations", PyList rules)].

(** A queue whose only alert belongs to a group no sample rule asks for,
    and a queue where that alert stands between those of ["g1"]. *)
Definition other_queue : list Alert :=
  [mkAlert 9 "g2" (mkDatetime 9) "disk full" PyNone].

Definition mixed_queue : list Alert :=
  sample_alert 1 "m1" [] :: other_queue
    ++ [sample_alert 2 "m2" [("k", PyStr "v")]; sample_alert 3 "m3" []].

(** The keys of a rule mapping that lines 59 to 120 look up. *)
Definition email_rule_keys : list string :=
  ["smtp"; "subject"; "fromEmail"; "toEmail"; "templateHtml"; "templateText";
   "templateVariables"; "groups"].

(** An element of the rule list accepted as the e-mail rule [rule]. *)
Definition accepted_as (configuration : PyVal) (rule : EmailRule) : Prop :=
  exists d,
    configuration = PyDict d /\
    get_str d "type" = Some "email" /\
    validate_email_configuration d = inr rule.

(** The calls made between the opening of the transport and the removal of
    the log file: sends, the closing of the transport and requeues. *)
Definition is_delivery_step (e : Event) : Prop :=
  match e with
  | EvSend _ _ | EvClose _ | EvRequeue _ => True
  | _ => False
  end.

(** The text of the error for a rule without a usable [type]. *)
Definition missing_type_text : string :=
  "Missing " ++ quote ++ "type" ++ quote ++ " for alert dispatch configuration".

(** A host whose line separator is carriage return, line feed. *)
Definition crlf_env : Env :=
  mkEnv (fun d => if (epoch_micros d =? 1)%Z then "T1" else "T2")
        (fun _ => "{'k': 'v'}")
        (carriage_return ++ newline)
        (fun _ => "/tmp/tmpq3x8.log")
        (fun _ _ => None)
        (fun _ _ _ => None)
        (fun _ => 0%Z)
        (fun _ => "0:00:00").

(** A host on which the transport cannot be opened. *)
Definition refusing_env (refusal : TransportError) : Env :=
  mkEnv (fun d => if (epoch_micros d =? 1)%Z then "T1" else "T2")
        (fun _ => "{'k': 'v'}")
        newline
        (fun _ => "/tmp/tmpq3x8.log")
        (fun _ _ => Some refusal)
        (fun _ _ _ => None)
        (fun _ => 0%Z)
        (fun _ => "0:00:00").

(** A rule with an HTML template only, and its validated form. *)
Definition rule_html_only : dict :=
  sample_rule_with sample_smtp [("templateHtml", PyStr "alerts.html")]
    [PyStr "g1"].

Definition html_only_email_rule : EmailRule :=
  mkEmailRule "smtp.example.org" 587 "monitor" "secret" None "Alerts"
    "dawis@example.org" (PyStr "ops@example.org") (Some "alerts.html") None
    [] [PyStr "g1"].

(** A rule whose port is the boolean [True]. *)
Definition rule_port_true : dict :=
  sample_rule_with
    [("host", PyStr "smtp.example.org"); ("port", PyBool true);
     ("user", PyStr "monitor"); ("password", PyStr "secret")]
    [("templateText", PyStr "alerts.txt")] [PyStr "g1"].

(** * Properties *)

(** ** Dictionaries *)

Lemma dict_get_set_same (k : string) (v : PyVal) (d : dict) :
  dict_get k (dict_set k v d) = Some v.
Proof.
  induction d as [| [k' v'] rest IH]; simpl.
  - now rewrite String.eqb_refl.
  - destruct (String.eqb k k') eqn:E; simpl; rewrite E; auto.
Qed.

Lemma dict_get_set_other (k k' : string) (v : PyVal) (d : dict) :
  k' <> k -> dict_get k' (dict_set k v d) = dict_get k' d.
Proof.
  intros Hne. induction d as [| [k0 v0] rest IH]; simpl.
  - destruct (String.eqb_spec k' k); [contradiction | reflexivity].
  - destruct (String.eqb_spec k k0) as [-> | Hk]; simpl.
    + destruct (String.eqb_spec k' k0); [contradiction | reflexivity].
    + destruct (String.eqb k' k0); auto.
Qed.

(** ** The queue *)

Lemma fetch_alerts_filter (groups : list PyVal) (q : AlertQueue.store) :
  AlertQueue.fetch_alerts groups q =
    (filter (AlertQueue.in_groups groups) q,
     filter (fun a => negb (AlertQueue.in_groups groups a)) q).
Proof. apply partition_as_filter. Qed.

Lemma filter_nil_all {A} (f : A -> bool) (l : list A) :
  filter f l = [] -> filter (fun a => negb (f a)) l = l.
Proof.
  induction l as [| a l IH]; simpl; auto.
  destruct (f a); simpl; [discriminate | intros H; f_equal; auto].
Qed.

Lemma filter_none {A} (f : A -> bool) (l : list A) :
  filter f (filter (fun a => negb (f a)) l) = [].
Proof.
  induction l as [| a l IH]; simpl; auto.
  destruct (f a) eqn:E; simpl; auto. now rewrite E.
Qed.

Lemma filter_all {A} (f : A -> bool) (l : list A) :
  filter f (filter f l) = filter f l.
Proof.
  induction l as [| a l IH]; simpl; auto.
  destruct (f a) eqn:E; simpl; auto. rewrite E. now f_equal.
Qed.

Lemma filter_split_permutation {A} (f : A -> bool) (l : list A) :
  Permutation (filter (fun a => negb (f a)) l ++ filter f l) l.
Proof.
  induction l as [| a l IH]; simpl; auto.
  destruct (f a); simpl.
  - apply Permutation_sym, Permutation_cons_app, Permutation_sym, IH.
  - now constructor.
Qed.

(** An empty fetch leaves the queue as it was. *)
Lemma fetch_nothing_keeps_queue groups q rest :
  AlertQueue.fetch_alerts groups q = ([], rest) -> rest = q.
Proof.
  rewrite fetch_alerts_filter. intros H. injection H as H1 H2.
  rewrite <- H2. now apply filter_nil_all.
Qed.

(** Requeueing what was fetched gives back the same alerts to the next
    fetch and the same content up to order. *)
Lemma requeue_restores groups q alerts rest :
  AlertQueue.fetch_alerts groups q = (alerts, rest) ->
  fst (AlertQueue.fetch_alerts groups (AlertQueue.add_alerts alerts rest)) = alerts
  /\ Permutation (AlertQueue.add_alerts alerts rest) q.
Proof.
  rewrite fetch_alerts_filter. intros H. injection H as H1 H2. subst.
  unfold AlertQueue.add_alerts. split.
  - rewrite fetch_alerts_filter. simpl.
    rewrite filter_app, filter_none. simpl. apply filter_all.
  - apply filter_split_permutation.
Qed.

(** ** Validation *)

Arguments get_str : simpl never.
Arguments get_int : simpl never.
Arguments get_dict : simpl never.
Arguments get_list : simpl never.
Arguments get_str_or_list : simpl never.

(** Validation agrees with the ordered list of required fields. *)
Lemma validate_first_missing (configuration : dict) :
  match first_missing_field configuration with
  | Some f => validate_email_configuration configuration = inl (field_error f)
  | None => exists rule, validate_email_configuration configuration = inr rule
  end.
Proof.
  unfold first_missing_field, validate_email_configuration. simpl.
  unfold smtp_of.
  destruct (get_dict configuration "smtp") as [smtp |]; simpl; [| reflexivity].
  destruct (get_str smtp "host"); simpl; [| reflexivity].
  destruct (get_int smtp "port"); simpl; [| reflexivity].
  destruct (get_str smtp "user"); simpl; [| reflexivity].
  destruct (get_str smtp "password"); simpl; [| reflexivity].
  destruct (get_str configuration "subject"); simpl; [| reflexivity].
  destruct (get_str configuration "fromEmail"); simpl; [| reflexivity].
  destruct (get_str_or_list configuration "toEmail"); simpl; [| reflexivity].
  destruct (get_str configuration "templateHtml"),
    (get_str configuration "templateText"); simpl; try reflexivity;
    destruct (get_list configuration "groups"); simpl; try reflexivity; eauto.
Qed.

(** Every failure of the validation is a [ConfigurationMissingError]. *)
Lemma validate_error_missing configuration e :
  validate_email_configuration configuration = inl e ->
  exists f, e = field_error f.
Proof.
  intros H. pose proof (validate_first_missing configuration) as V.
  destruct (first_missing_field configuration) as [f |].
  - exists f. congruence.
  - destruct V as [rule V]. congruence.
Qed.

(** A rule that fails validation touches neither the queue nor the
    transport: the world is returned as it was. *)
Lemma invalid_rule_no_effect env configuration e w :
  validate_email_configuration configuration = inl e ->
  _process_email_configuration env configuration w = (inl e, w).
Proof.
  intros H. unfold _process_email_configuration, bind, lift. now rewrite H.
Qed.

(** What an accepted rule holds. *)
Lemma validate_accepts configuration rule :
  validate_email_configuration configuration = inr rule ->
  get_list configuration "groups" = Some (groups rule)
  /\ template_html_path rule = get_str configuration "templateHtml"
  /\ template_text_path rule = get_str configuration "templateText"
  /\ template_variables rule =
       match get_dict configuration "templateVariables" with
       | Some d => d
       | None => []
       end
  /\ (template_html_path rule <> None \/ template_text_path rule <> None).
Proof.
  unfold validate_email_configuration.
  destruct (get_dict configuration "smtp") as [smtp |]; simpl; [| discriminate].
  destruct (get_str smtp "host"); simpl; [| discriminate].
  destruct (get_int smtp "port"); simpl; [| discriminate].
  destruct (get_str smtp "user"); simpl; [| discriminate].
  destruct (get_str smtp "password"); simpl; [| discriminate].
  destruct (get_str configuration "subject"); simpl; [| discriminate].
  destruct (get_str configuration "fromEmail"); simpl; [| discriminate].
  destruct (get_str_or_list configuration "toEmail"); simpl; [| discriminate].
  destruct (get_str configuration "templateHtml"),
    (get_str configuration "templateText"); simpl; try discriminate;
    (destruct (get_list configuration "groups"); simpl; [| discriminate]);
    intros H; injection H as <-; simpl; repeat split; auto;
    solve [left; discriminate | right; discriminate].
Qed.

(** ** One delivery attempt *)

Lemma length_positive {A} (l : list A) :
  l <> [] -> (0 <? length l)%nat = true.
Proof. destruct l; [congruence | reflexivity]. Qed.

(** An empty fetch ends the processing of the rule at once. *)
Lemma dispatch_alerts_empty env rule w rest :
  AlertQueue.fetch_alerts (groups rule) (alert_queue w) = ([], rest) ->
  dispatch_alerts env rule w =
    (inr tt,
     mkWorld (alert_queue w) (events w ++ [EvFetch (groups rule) []])
       (stdout w) (bigquery w)).
Proof.
  intros F. pose proof (fetch_nothing_keeps_queue _ _ _ F) as ->.
  unfold dispatch_alerts, bind, fetch_alerts. now rewrite F.
Qed.

(** The world after an attempt, by the outcome of the transport. *)
Lemma dispatch_alerts_attempt env rule w alerts rest :
  AlertQueue.fetch_alerts (groups rule) (alert_queue w) = (alerts, rest) ->
  alerts <> [] ->
  dispatch_alerts env rule w =
    let evs :=
      events w ++ log_events env w rule alerts
        ++ transport_events env w rule alerts in
    let removed := EvLogRemoved (log_name env w rule alerts) in
    match transport_outcome env w rule alerts with
    | None =>
        (inr tt, mkWorld rest (evs ++ [removed]) (stdout w) (bigquery w))
    | Some e =>
        match delivery_error (Raised e) with
        | Some error =>
            (inl (ConfigurationInvalidError (str_of_error error)),
             mkWorld (AlertQueue.add_alerts alerts rest)
               (evs ++ [EvRequeue alerts; removed]) (stdout w) (bigquery w))
        | None =>
            (inl (Raised e),
             mkWorld rest (evs ++ [removed]) (stdout w) (bigquery w))
        end
    end.
Proof.
  intros F Hne.
  unfold dispatch_alerts, bind, fetch_alerts. rewrite F.
  rewrite (length_positive alerts Hne).
  unfold with_log_file, try_except, with_dispatcher, send, add_alerts, raise,
    bind, emit, transport_outcome, transport_events, connected, log_events,
    attempted_call, sent_variables, log_name, rule_dispatcher.
  cbn [events alert_queue stdout bigquery snd fst].
  repeat rewrite <- app_assoc. cbn [app].
  destruct (connect_outcome env _ _) as [e |] eqn:C.
  - cbn [is_some negb]. destruct e; cbn; repeat rewrite <- app_assoc; reflexivity.
  - cbn [is_some negb].
    destruct (send_outcome env _ _ _) as [e |] eqn:S.
    + destruct e; cbn; repeat rewrite <- app_assoc; reflexivity.
    + cbn. repeat rewrite <- app_assoc. reflexivity.
Qed.

(** ** The log file *)

Lemma append_nil_r (s : string) : (s ++ EmptyString)%string = s.
Proof. induction s as [| c s IH]; cbn; [reflexivity | now rewrite IH]. Qed.

Lemma append_assoc (s1 s2 s3 : string) :
  ((s1 ++ s2) ++ s3)%string = (s1 ++ (s2 ++ s3))%string.
Proof. induction s1 as [| c s1 IH]; cbn; [reflexivity | now rewrite IH]. Qed.

Lemma log_item_spec env alert : log_item env alert = spec_log_line env alert.
Proof.
  unfold log_item, spec_log_line, is_nonempty_mapping.
  destruct (data alert) as [| | | | | | [| entry entries] |]; cbn;
    now rewrite ?append_assoc, ?append_nil_r.
Qed.

(** The example of section 8 of the specification. *)
Example attachment_of_two_alerts :
  write_alerts (sample_env None)
    [sample_alert 1 "m1" []; sample_alert 2 "m2" [("k", PyStr "v")]]
    EmptyString =
  ("[T1] m1" ++ newline ++ "[T2] m2 | {'k': 'v'}" ++ newline)%string.
Proof. reflexivity. Qed.

Lemma text_layer_app separator s1 s2 :
  text_layer separator (s1 ++ s2) =
    (text_layer separator s1 ++ text_layer separator s2)%string.
Proof.
  induction s1 as [| c s1 IH]; cbn [append text_layer]; [reflexivity |].
  rewrite IH. destruct (Ascii.eqb c (ascii_of_nat 10)).
  - now rewrite append_assoc.
  - reflexivity.
Qed.

(** On a host whose separator is the line feed the text layer changes
    nothing. *)
Lemma text_layer_line_feed s : text_layer newline s = s.
Proof.
  induction s as [| c s IH]; cbn [text_layer]; [reflexivity |].
  rewrite IH. destruct (Ascii.eqb_spec c (ascii_of_nat 10)) as [-> | _];
    reflexivity.
Qed.

Lemma concat_empty_cons (x : string) (xs : list string) :
  String.concat EmptyString (x :: xs) =
    (x ++ String.concat EmptyString xs)%string.
Proof. destruct xs; cbn; [now rewrite append_nil_r | reflexivity]. Qed.

(** The file holds the lines of the specification as the text layer writes
    them. *)
Lemma write_alerts_spec env alerts written :
  write_alerts env alerts written =
    (written ++ text_layer (linesep env) (spec_attachment env alerts))%string.
Proof.
  revert written. induction alerts as [| alert rest IH]; intros written.
  - cbn. now rewrite append_nil_r.
  - cbn [write_alerts]. unfold log_file_write. rewrite IH, log_item_spec.
    unfold spec_attachment. cbn [map].
    rewrite concat_empty_cons, !text_layer_app, !append_assoc. reflexivity.
Qed.

(** ** Reading the trace of an attempt *)

Lemma process_valid_rule env configuration rule w :
  validate_email_configuration configuration = inr rule ->
  _process_email_configuration env configuration w = dispatch_alerts env rule w.
Proof.
  intros V. unfold _process_email_configuration, bind, lift. rewrite V.
  now destruct (dispatch_alerts env rule w) as [[e | []] w'].
Qed.

(** Whatever the transport does, the trace of an attempt is the fetch, the
    log file, the transport calls, a requeue or none, and the removal of the
    log file. *)
Lemma attempt_events env rule w alerts rest :
  AlertQueue.fetch_alerts (groups rule) (alert_queue w) = (alerts, rest) ->
  alerts <> [] ->
  exists tail,
    events (snd (dispatch_alerts env rule w)) =
      events w ++ log_events env w rule alerts
        ++ transport_events env w rule alerts ++ tail
    /\ (tail = [EvLogRemoved (log_name env w rule alerts)]
        \/ tail = [EvRequeue alerts; EvLogRemoved (log_name env w rule alerts)]).
Proof.
  intros F Hne. rewrite (dispatch_alerts_attempt env rule w alerts rest F Hne).
  cbv zeta.
  destruct (transport_outcome env w rule alerts) as [e |];
    [destruct (delivery_error (Raised e)) |];
    cbn [snd events]; rewrite <- !app_assoc; eauto.
Qed.

Lemma sends_app evs1 evs2 : sends (evs1 ++ evs2) = sends evs1 ++ sends evs2.
Proof. apply flat_map_app. Qed.

Lemma requeues_app evs1 evs2 :
  requeues (evs1 ++ evs2) = requeues evs1 ++ requeues evs2.
Proof. apply flat_map_app. Qed.

Lemma fetches_app evs1 evs2 :
  fetches (evs1 ++ evs2) = fetches evs1 ++ fetches evs2.
Proof. apply flat_map_app. Qed.

Lemma log_files_app evs1 evs2 :
  log_files (evs1 ++ evs2) = log_files evs1 ++ log_files evs2.
Proof. apply flat_map_app. Qed.

(** The projections of the trace are decided by whether the transport was
    opened and by which of the two endings the attempt had. *)
Ltac attempt_cases T :=
  unfold transport_events;
  match goal with
  | |- context [connected ?env ?w ?rule ?alerts] =>
      destruct (connected env w rule alerts), T as [-> | ->]; reflexivity
  end.

Lemma attempt_sends env rule w alerts rest :
  AlertQueue.fetch_alerts (groups rule) (alert_queue w) = (alerts, rest) ->
  alerts <> [] ->
  sends (events (snd (dispatch_alerts env rule w))) =
    sends (events w)
      ++ (if connected env w rule alerts
          then [(rule_dispatcher rule, attempted_call env w rule alerts)]
          else []).
Proof.
  intros F Hne.
  destruct (attempt_events env rule w alerts rest F Hne) as (tail & -> & T).
  rewrite !sends_app. f_equal. attempt_cases T.
Qed.

(** ** Delivery failure *)

(** C1.  When an e-mail rule passes validation, the fetch returns a
    non-empty batch and the transport block raises a [ConnectionError] or a
    [DispatcherException], the module makes exactly one requeue call, with
    the whole fetched batch; the queue then holds what was left plus the
    whole batch, so that the same fetch returns the batch again and nothing
    of the original queue is lost or doubled; and the caller receives a
    [ConfigurationInvalidError] whose text is that of the cause. *)
Theorem delivery_failure_requeues_all env configuration rule w alerts rest e :
  validate_email_configuration configuration = inr rule ->
  AlertQueue.fetch_alerts (groups rule) (alert_queue w) = (alerts, rest) ->
  alerts <> [] ->
  transport_outcome env w rule alerts = Some e ->
  (exists t, e = ConnectionError t \/ e = DispatcherException t) ->
  exists w',
    _process_email_configuration env configuration w =
      (inl (ConfigurationInvalidError (str_of_error e)), w')
    /\ requeues (events w') = requeues (events w) ++ [alerts]
    /\ alert_queue w' = AlertQueue.add_alerts alerts rest
    /\ fst (AlertQueue.fetch_alerts (groups rule) (alert_queue w')) = alerts
    /\ Permutation (alert_queue w') (alert_queue w).
Proof.
  intros V F Hne T (t & K).
  rewrite (process_valid_rule env configuration rule w V).
  rewrite (dispatch_alerts_attempt env rule w alerts rest F Hne), T.
  cbv zeta.
  assert (D : delivery_error (Raised e) = Some e) by (destruct K; subst; reflexivity).
  rewrite D. eexists. split; [reflexivity |].
  cbn [events alert_queue].
  destruct (requeue_restores _ _ _ _ F) as [R P].
  repeat split; auto.
  rewrite !requeues_app. unfold transport_events.
  destruct (connected env w rule alerts); cbn; now rewrite app_nil_r.
Qed.

Lemma delivery_failure_requeues_all_witness :
  exists w',
    _process_email_configuration (sample_env (Some (ConnectionError "refused")))
      sample_rule (sample_world mixed_queue) =
      (inl (ConfigurationInvalidError "refused"), w')
    /\ requeues (events w') = [] ++ [sample_queue]
    /\ alert_queue w' = AlertQueue.add_alerts sample_queue other_queue
    /\ fst (AlertQueue.fetch_alerts [PyStr "g1"] (alert_queue w')) = sample_queue
    /\ Permutation (alert_queue w') mixed_queue.
Proof.
  apply (delivery_failure_requeues_all
           (sample_env (Some (ConnectionError "refused")))
           sample_rule sample_email_rule (sample_world mixed_queue)
           sample_queue other_queue (ConnectionError "refused")).
  - reflexivity.
  - reflexivity.
  - discriminate.
  - reflexivity.
  - exists "refused". left. reflexivity.
Defined.

(** ** Order of the checks *)

(** C2.  The validation of an e-mail rule raises for the first field, in the
    order smtp, host, port, user, password, subject, fromEmail, toEmail,
    template(s), groups, that is missing or mistyped, and only for that one;
    the world is then left as it was: nothing was fetched and nothing was
    sent.  When no field is missing, the rule is accepted. *)
Theorem email_fields_validated_in_order env configuration w :
  match first_missing_field configuration with
  | Some f =>
      validate_email_configuration configuration = inl (field_error f)
      /\ _process_email_configuration env configuration w = (inl (field_error f), w)
  | None =>
      exists rule, validate_email_configuration configuration = inr rule
  end.
Proof.
  pose proof (validate_first_missing configuration) as V.
  destruct (first_missing_field configuration) as [f |]; [| exact V].
  split; [exact V | now apply invalid_rule_no_effect].
Qed.

(** ** Texts of the errors *)

(** C3.  A rule that lacks only the smtp password is rejected with the text
    written for a missing user: the same text as for the rule that lacks
    only the user, and one in which the word password does not occur.
    Nothing is fetched or sent. *)
Theorem missing_password_reported_as_user env w :
  _process_email_configuration env rule_without_password w =
    (inl (ConfigurationMissingError "Missing user in alert mail smtp configuration"), w)
  /\ validate_email_configuration rule_without_password =
       validate_email_configuration rule_without_user
  /\ first_missing_field rule_without_password = Some F_smtp_password
  /\ first_missing_field rule_without_user = Some F_smtp_user
  /\ str_contains "password" "Missing user in alert mail smtp configuration" = false.
Proof.
  split; [| repeat split; reflexivity].
  apply invalid_rule_no_effect. reflexivity.
Qed.

(** ** Groups *)

Lemma attempt_fetches env rule w :
  fetches (events (snd (dispatch_alerts env rule w))) =
    fetches (events w) ++ [groups rule].
Proof.
  destruct (AlertQueue.fetch_alerts (groups rule) (alert_queue w))
    as [alerts rest] eqn:F.
  destruct alerts as [| a alerts].
  - rewrite (dispatch_alerts_empty env rule w rest F). cbn [snd events].
    now rewrite fetches_app.
  - assert (Hne : a :: alerts <> []) by discriminate.
    destruct (attempt_events env rule w _ rest F Hne) as (tail & -> & T).
    rewrite !fetches_app. f_equal. attempt_cases T.
Qed.

(** C4, as the code has it.  An accepted e-mail rule has a [groups] field
    that is a list, empty or not, and the module goes on to fetch the alerts
    of exactly that list. *)
Theorem accepted_groups_is_a_list env configuration rule w :
  validate_email_configuration configuration = inr rule ->
  dict_get "groups" configuration = Some (PyList (groups rule))
  /\ fetches (events (snd (_process_email_configuration env configuration w))) =
       fetches (events w) ++ [groups rule].
Proof.
  intros V. split.
  - destruct (validate_accepts configuration rule V) as (G & _).
    unfold get_list in G.
    destruct (dict_get "groups" configuration) as [[] |]; try discriminate.
    now injection G as ->.
  - rewrite (process_valid_rule env configuration rule w V).
    apply attempt_fetches.
Qed.

(** C4 as stated fails: the rule [rule_empty_groups], whose [groups] is the
    empty list, is accepted with no group at all, and the module fetches
    for the empty list. *)
Lemma empty_groups_accepted :
  dict_get "groups" rule_empty_groups = Some (PyList [])
  /\ (exists rule,
        validate_email_configuration rule_empty_groups = inr rule
        /\ groups rule = [])
  /\ _process_email_configuration (sample_env None) rule_empty_groups
       (sample_world sample_queue) =
     (inr tt, mkWorld sample_queue [EvFetch [] []] [] false).
Proof.
  split; [reflexivity |]. split; [| reflexivity].
  eexists. split; reflexivity.
Qed.

Lemma accepted_groups_is_a_list_witness :
  dict_get "groups" rule_empty_groups = Some (PyList [])
  /\ fetches (events (snd (_process_email_configuration (sample_env None)
                             rule_empty_groups (sample_world sample_queue)))) =
       [] ++ [[]].
Proof.
  apply (accepted_groups_is_a_list (sample_env None) rule_empty_groups
           (mkEmailRule "smtp.example.org" 587 "monitor" "secret" None "Alerts"
              "dawis@example.org" (PyStr "ops@example.org") None
              (Some "alerts.txt") [] [])
           (sample_world sample_queue)).
  reflexivity.
Defined.

(** ** Templates *)

Lemma get_str_absent configuration k :
  dict_get k configuration = None -> get_str configuration k = None.
Proof. unfold get_str. now intros ->. Qed.

Lemma get_str_present configuration k s :
  dict_get k configuration = Some (PyStr s) -> get_str configuration k = Some s.
Proof. unfold get_str. now intros ->. Qed.

(** C5.  An e-mail rule with neither [templateHtml] nor [templateText] is
    rejected with a [ConfigurationMissingError] and nothing is fetched or
    sent; for an accepted rule that has both template paths, one send
    operation is invoked once the transport is open, and it is the combined
    [send_email] with both paths. *)
Theorem templates_none_or_combined env configuration w :
  (dict_get "templateHtml" configuration = None ->
   dict_get "templateText" configuration = None ->
   exists text,
     validate_email_configuration configuration =
       inl (ConfigurationMissingError text)
     /\ _process_email_configuration env configuration w =
          (inl (ConfigurationMissingError text), w))
  /\ (forall rule alerts rest html text,
        validate_email_configuration configuration = inr rule ->
        dict_get "templateHtml" configuration = Some (PyStr html) ->
        dict_get "templateText" configuration = Some (PyStr text) ->
        AlertQueue.fetch_alerts (groups rule) (alert_queue w) = (alerts, rest) ->
        alerts <> [] ->
        connected env w rule alerts = true ->
        sends (events (snd (_process_email_configuration env configuration w))) =
          sends (events w)
            ++ [(rule_dispatcher rule,
                 send_email (from_email rule) (to_email rule) (subject rule)
                   html text (sent_variables rule alerts)
                   [("alerts.log", log_name env w rule alerts)])]).
Proof.
  split.
  - intros Hh Ht.
    destruct (validate_email_configuration configuration) as [e | rule] eqn:V.
    + destruct (validate_error_missing configuration e V) as [f ->].
      eexists. split; [reflexivity |].
      now apply invalid_rule_no_effect.
    + destruct (validate_accepts configuration rule V) as (_ & Eh & Et & _ & T).
      rewrite (get_str_absent _ _ Hh) in Eh.
      rewrite (get_str_absent _ _ Ht) in Et.
      destruct T; congruence.
  - intros rule alerts rest html text V Hh Ht F Hne C.
    destruct (validate_accepts configuration rule V) as (_ & Eh & Et & _).
    rewrite (get_str_present _ _ _ Hh) in Eh.
    rewrite (get_str_present _ _ _ Ht) in Et.
    rewrite (process_valid_rule env configuration rule w V).
    rewrite (attempt_sends env rule w alerts rest F Hne), C.
    unfold attempted_call, send_call. now rewrite Eh, Et.
Qed.

Lemma templates_none_or_combined_witness :
  (exists text,
     validate_email_configuration rule_no_template =
       inl (ConfigurationMissingError text)
     /\ _process_email_configuration (sample_env None) rule_no_template
          (sample_world sample_queue) =
          (inl (ConfigurationMissingError text), sample_world sample_queue))
  /\ sends (events (snd (_process_email_configuration (sample_env None)
                           rule_both_templates (sample_world sample_queue)))) =
       [] ++ [(rule_dispatcher both_templates_email_rule,
               send_email "dawis@example.org" (PyStr "ops@example.org") "Alerts"
                 "alerts.html" "alerts.txt"
                 (sent_variables both_templates_email_rule sample_queue)
                 [("alerts.log", "/tmp/tmpq3x8.log")])].
Proof.
  split.
  - apply (proj1 (templates_none_or_combined (sample_env None) rule_no_template
                    (sample_world sample_queue))); reflexivity.
  - apply (proj2 (templates_none_or_combined (sample_env None)
                    rule_both_templates (sample_world sample_queue))
             both_templates_email_rule sample_queue [] "alerts.html"
             "alerts.txt");
      solve [reflexivity | discriminate].
Defined.

(** ** The type of a rule *)

(** C6.  The [type] field is looked at before anything else in a rule
    mapping.  When it is absent or is not a string the rule fails with a
    [ConfigurationMissingError]; when it is a string other than ["email"]
    the rule fails with a [ConfigurationInvalidError] quoting it.  In both
    cases the world is left as it was and the outcome is the same for every
    mapping with that [type] entry, whatever its other fields. *)
Theorem type_checked_first env configuration w :
  ((dict_get "type" configuration = None
    \/ exists v, dict_get "type" configuration = Some v
                 /\ forall s, v <> PyStr s) ->
   _process_configuration env (PyDict configuration) w =
     (inl (ConfigurationMissingError
             ("Missing " ++ quote ++ "type" ++ quote
                ++ " for alert dispatch configuration")), w))
  /\ (forall alert_type,
        dict_get "type" configuration = Some (PyStr alert_type) ->
        alert_type <> "email" ->
        _process_configuration env (PyDict configuration) w =
          (inl (ConfigurationInvalidError
                  ("Invalid alert type " ++ quote ++ alert_type ++ quote)), w))
  /\ (forall other,
        dict_get "type" other = dict_get "type" configuration ->
        dict_get "type" configuration <> Some (PyStr "email") ->
        _process_configuration env (PyDict other) w =
          _process_configuration env (PyDict configuration) w).
Proof.
  unfold _process_configuration, bind, lift, raise, type_of_rule, get_str.
  repeat split.
  - intros [-> | (v & -> & Hv)]; [reflexivity |].
    destruct v; try reflexivity. now elim (Hv s).
  - intros alert_type -> Hne.
    destruct (String.eqb_spec "email" alert_type); [congruence | reflexivity].
  - intros other -> Hne.
    destruct (dict_get "type" configuration) as [[] |]; try reflexivity.
    destruct (String.eqb_spec "email" s); [congruence | reflexivity].
Qed.

Lemma type_checked_first_witness :
  _process_configuration (sample_env None) (PyDict rule_type_missing)
    (sample_world sample_queue) =
    (inl (ConfigurationMissingError
            ("Missing " ++ quote ++ "type" ++ quote
               ++ " for alert dispatch configuration")),
     sample_world sample_queue)
  /\ _process_configuration (sample_env None) (PyDict rule_type_number)
       (sample_world sample_queue) =
       (inl (ConfigurationMissingError
               ("Missing " ++ quote ++ "type" ++ quote
                  ++ " for alert dispatch configuration")),
        sample_world sample_queue)
  /\ _process_configuration (sample_env None) (PyDict rule_type_sms)
       (sample_world sample_queue) =
       (inl (ConfigurationInvalidError
               ("Invalid alert type " ++ quote ++ "sms" ++ quote)),
        sample_world sample_queue)
  /\ _process_configuration (sample_env None)
       (PyDict [("type", PyStr "sms")]) (sample_world sample_queue) =
     _process_configuration (sample_env None) (PyDict rule_type_sms)
       (sample_world sample_queue).
Proof.
  split; [| split; [| split]].
  - apply (proj1 (type_checked_first (sample_env None) rule_type_missing
                    (sample_world sample_queue))).
    left. reflexivity.
  - apply (proj1 (type_checked_first (sample_env None) rule_type_number
                    (sample_world sample_queue))).
    right. exists (PyInt 3). split; [reflexivity | discriminate].
  - apply (proj1 (proj2 (type_checked_first (sample_env None) rule_type_sms
                           (sample_world sample_queue)))).
    + reflexivity.
    + discriminate.
  - apply (proj2 (proj2 (type_checked_first (sample_env None) rule_type_sms
                           (sample_world sample_queue)))).
    + reflexivity.
    + discriminate.
Defined.

(** ** Template variables *)

(** C9.  For a non-empty batch the variables given to the send operation
    hold, under ["alerts"], exactly the fetched list, whatever the rule's
    [templateVariables] held under that key before; under every other key
    they hold what [templateVariables] holds (nothing when the rule has no
    such mapping). *)
Theorem alerts_variable_injected env configuration rule w alerts rest :
  validate_email_configuration configuration = inr rule ->
  AlertQueue.fetch_alerts (groups rule) (alert_queue w) = (alerts, rest) ->
  alerts <> [] ->
  connected env w rule alerts = true ->
  exists call,
    sends (events (snd (_process_email_configuration env configuration w))) =
      sends (events w) ++ [(rule_dispatcher rule, call)]
    /\ dict_get "alerts" (variables_of call) = Some (PyList (map PyAlert alerts))
    /\ forall k,
         k <> "alerts" ->
         dict_get k (variables_of call) =
           dict_get k
             match get_dict configuration "templateVariables" with
             | Some configured => configured
             | None => []
             end.
Proof.
  intros V F Hne C.
  exists (attempted_call env w rule alerts).
  rewrite (process_valid_rule env configuration rule w V).
  rewrite (attempt_sends env rule w alerts rest F Hne), C.
  split; [reflexivity |].
  destruct (validate_accepts configuration rule V) as (_ & _ & _ & <- & _).
  assert (E : variables_of (attempted_call env w rule alerts) =
                sent_variables rule alerts).
  { unfold attempted_call, send_call.
    destruct (template_html_path rule), (template_text_path rule); reflexivity. }
  rewrite E. unfold sent_variables. split.
  - apply dict_get_set_same.
  - intros k Hk. now apply dict_get_set_other.
Qed.

Lemma alerts_variable_injected_witness :
  exists call,
    sends (events (snd (_process_email_configuration (sample_env None)
                          rule_both_templates (sample_world sample_queue)))) =
      [] ++ [(rule_dispatcher both_templates_email_rule, call)]
    /\ dict_get "alerts" (variables_of call) =
         Some (PyList (map PyAlert sample_queue))
    /\ forall k,
         k <> "alerts" ->
         dict_get k (variables_of call) =
           dict_get k
             match get_dict rule_both_templates "templateVariables" with
             | Some configured => configured
             | None => []
             end.
Proof.
  apply (alerts_variable_injected (sample_env None) rule_both_templates
           both_templates_email_rule (sample_world sample_queue)
           sample_queue []);
    solve [reflexivity | discriminate].
Defined.

(** ** Content of the log file *)

(** C8.  The module ends each line of the log file with the line separator
    of the host, but writes it to a file opened in text mode, whose text
    layer turns every line feed into that separator once more: what the
    file holds is the text of the specification passed through the text
    layer.  On a host whose separator is carriage return, line feed, the
    line of one alert ends in carriage return, carriage return, line feed,
    where the specification has carriage return, line feed. *)
Theorem attachment_doubles_carriage_return :
  (forall env alerts,
     write_alerts env alerts EmptyString =
       text_layer (linesep env) (spec_attachment env alerts))
  /\ log_files (events (snd (_process_email_configuration crlf_env sample_rule
                               (sample_world [sample_alert 1 "m1" []])))) =
       [("/tmp/tmpq3x8.log",
         ("[T1] m1" ++ carriage_return ++ carriage_return ++ newline)%string)]
  /\ spec_attachment crlf_env [sample_alert 1 "m1" []] =
       ("[T1] m1" ++ carriage_return ++ newline)%string.
Proof.
  split; [| split; reflexivity].
  intros env alerts. apply write_alerts_spec.
Qed.

(** ** The loop over the rules *)

(** What [dispatch_alerts] can return and what it leaves untouched. *)
Lemma dispatch_alerts_outcome env rule w :
  (fst (dispatch_alerts env rule w) = inr tt
   \/ (exists text, fst (dispatch_alerts env rule w) =
                      inl (ConfigurationInvalidError text))
   \/ (exists e, fst (dispatch_alerts env rule w) = inl (Raised e)))
  /\ stdout (snd (dispatch_alerts env rule w)) = stdout w
  /\ bigquery (snd (dispatch_alerts env rule w)) = bigquery w.
Proof.
  destruct (AlertQueue.fetch_alerts (groups rule) (alert_queue w))
    as [alerts rest] eqn:F.
  destruct alerts as [| a alerts].
  - rewrite (dispatch_alerts_empty env rule w rest F). cbn. auto.
  - assert (Hne : a :: alerts <> []) by discriminate.
    rewrite (dispatch_alerts_attempt env rule w _ rest F Hne). cbv zeta.
    destruct (transport_outcome env w rule (a :: alerts)) as [e |];
      [destruct (delivery_error (Raised e)) |]; cbn; eauto 6.
Qed.

Lemma type_of_rule_error configuration e :
  type_of_rule configuration = inl e -> e = TypeError.
Proof.
  unfold type_of_rule. destruct configuration; try congruence.
  - destruct (str_contains "type" s); congruence.
  - destruct (existsb (str_eq "type") items); congruence.
Qed.

Lemma process_configuration_outcome env configuration w :
  fst (_process_configuration env configuration w) <> inl _DataAlreadyExistError
  /\ stdout (snd (_process_configuration env configuration w)) = stdout w
  /\ bigquery (snd (_process_configuration env configuration w)) = bigquery w.
Proof.
  unfold _process_configuration, bind, lift, raise.
  destruct (type_of_rule configuration) as [e | [alert_type |]] eqn:T;
    cbv beta iota.
  - rewrite (type_of_rule_error _ _ T). cbn [fst snd].
    repeat split; discriminate.
  - destruct (String.eqb "email" alert_type);
      [| cbn [fst snd]; repeat split; discriminate].
    destruct configuration as [| | | | | | d |];
      try (cbn [fst snd]; repeat split; discriminate).
    unfold _process_email_configuration, bind, lift.
    destruct (validate_email_configuration d) as [e | rule] eqn:V.
    + destruct (validate_error_missing d e V) as [f ->].
      cbn [fst snd]. repeat split; discriminate.
    + destruct (dispatch_alerts_outcome env rule w) as (O & S & B).
      destruct (dispatch_alerts env rule w) as [[e | []] w'];
        cbn [fst snd] in *; repeat split; auto; try discriminate.
      destruct O as [O | [(text & O) | (e' & O)]]; congruence.
  - cbn [fst snd]. repeat split; discriminate.
Qed.

(** One turn of the loop. *)
Lemma run_configurations_step env configuration rest w :
  run_configurations env (configuration :: rest) w =
    match _process_configuration env configuration w with
    | (inr _, w1) =>
        run_configurations env rest
          (mkWorld (alert_queue w1) (events w1) (stdout w1 ++ [" - OK"])
             (bigquery w1))
    | (inl _DataAlreadyExistError, w1) =>
        run_configurations env rest
          (mkWorld (alert_queue w1) (events w1) (stdout w1 ++ [" - EXISTS"])
             (bigquery w1))
    | (inl e, w1) => (inl e, w1)
    end.
Proof.
  cbn [run_configurations]. unfold bind, try_except, print.
  destruct (_process_configuration env configuration w) as [[[] | []] w1];
    reflexivity.
Qed.

(** The loop prints one [" - OK"] per processed rule and nothing else; it
    ends either after the last rule or with the exception of the first rule
    that raised. *)
Lemma run_configurations_outcome env rules :
  forall w,
  exists n,
    stdout (snd (run_configurations env rules w)) = stdout w ++ repeat " - OK" n
    /\ bigquery (snd (run_configurations env rules w)) = bigquery w
    /\ ((fst (run_configurations env rules w) = inr tt /\ n = length rules)
        \/ (exists e configuration w0,
              fst (run_configurations env rules w) = inl e
              /\ nth_error rules n = Some configuration
              /\ _process_configuration env configuration w0 =
                   (inl e, snd (run_configurations env rules w))
              /\ e <> _DataAlreadyExistError)).
Proof.
  induction rules as [| configuration rest IH]; intros w.
  - exists 0%nat. cbn. rewrite app_nil_r. auto.
  - destruct (process_configuration_outcome env configuration w) as (N & So & B).
    rewrite run_configurations_step.
    destruct (_process_configuration env configuration w) as [[e | []] w1] eqn:P;
      cbn [fst snd] in *.
    + exists 0%nat.
      destruct e; try congruence; cbn [fst snd repeat nth_error];
        (split; [now rewrite app_nil_r |]); (split; [exact B |]); right;
        eexists _, configuration, w; rewrite P;
        (split; [reflexivity |]); (split; [reflexivity |]);
        (split; [reflexivity | discriminate]).
    + match goal with
      | |- context [run_configurations env rest ?w2] =>
          destruct (IH w2) as (n & S' & B' & O)
      end.
      cbn [stdout bigquery] in S', B'.
      exists (S n).
      split; [rewrite S', So, <- app_assoc; reflexivity |].
      split; [congruence |].
      destruct O as [[O ->] | (e & c & w0 & O & Hn & Hp & He)].
      * left. split; [exact O | reflexivity].
      * right. exists e, c, w0. repeat split; auto.
Qed.

(** [run] is the header, the loop and, when the loop ends normally, the
    completion line. *)
Lemma run_unfold env module_configuration w :
  run env module_configuration w =
    match
      run_configurations env (configured_rules module_configuration)
        (mkWorld (alert_queue w) (events w) (stdout w ++ [running_line])
           (if String.eqb "bigquery" (database module_configuration)
            then true else bigquery w))
    with
    | (inr _, w1) =>
        (inr tt,
         mkWorld (alert_queue w1) (events w1)
           (stdout w1 ++ [completed_line env w w1]) (bigquery w1))
    | (inl e, w1) => (inl e, w1)
    end.
Proof.
  unfold run, configured_rules, completed_line, running_line, bind, print, now,
    bind_bigquery, ret.
  cbn [alert_queue events stdout bigquery].
  destruct (String.eqb "bigquery" (database module_configuration));
    cbn [alert_queue events stdout bigquery];
    destruct (get_list (settings module_configuration) "configurations");
    cbn [run_configurations ret];
    try match goal with
      | |- context [run_configurations env ?l ?w0] =>
          destruct (run_configurations env l w0) as [[e | []] w1]
      end;
    reflexivity.
Qed.

Lemma not_exists_line n tail :
  tail = [] \/ (exists text, tail = [(newline ++ text)%string]) ->
  ~ In " - EXISTS" (running_line :: repeat " - OK" n ++ tail).
Proof.
  intros T [H | H]; [discriminate |].
  apply in_app_or in H. destruct H as [H | H].
  - apply repeat_spec in H. discriminate.
  - destruct T as [-> | (text & ->)]; [contradiction |].
    destruct H as [H | []]. discriminate.
Qed.

(** C10.  No rule ever ends with [_DataAlreadyExistError], so [run] never
    prints [" - EXISTS"]: what it prints is the header, one [" - OK"] for
    each rule processed to the end and, if no rule raised, the completion
    line; otherwise the exception of the first failing rule leaves [run]
    and the rules after it are not processed. *)
Theorem exists_branch_unreachable env module_configuration w :
  (forall configuration w0,
     fst (_process_configuration env configuration w0)
       <> inl _DataAlreadyExistError)
  /\ exists n tail,
       stdout (snd (run env module_configuration w)) =
         stdout w ++ running_line :: repeat " - OK" n ++ tail
       /\ ~ In " - EXISTS" (running_line :: repeat " - OK" n ++ tail)
       /\ ((fst (run env module_configuration w) = inr tt
            /\ n = length (configured_rules module_configuration)
            /\ tail = [completed_line env w (snd (run env module_configuration w))])
           \/ (exists e configuration w0,
                 fst (run env module_configuration w) = inl e
                 /\ tail = []
                 /\ nth_error (configured_rules module_configuration) n =
                      Some configuration
                 /\ _process_configuration env configuration w0 =
                      (inl e, snd (run env module_configuration w))
                 /\ e <> _DataAlreadyExistError)).
Proof.
  split; [intros c w0; apply process_configuration_outcome |].
  rewrite run_unfold.
  match goal with
  | |- context [run_configurations env ?l ?w0] =>
      destruct (run_configurations_outcome env l w0) as (n & So & _ & O);
      destruct (run_configurations env l w0) as [[e | []] w1]
  end; cbn [fst snd stdout] in *.
  - destruct O as [[O _] | (e' & c & w0 & O & Hn & Hp & He)]; [discriminate |].
    injection O as <-.
    exists n, [].
    split; [rewrite So, <- app_assoc, app_nil_r; reflexivity |].
    split; [apply not_exists_line; auto |].
    right. exists e, c, w0. auto.
  - destruct O as [[_ ->] | (e' & c & w0 & O & _)]; [| discriminate].
    eexists _, [_].
    split; [rewrite So, <- !app_assoc; reflexivity |].
    split; [apply not_exists_line; right; unfold completed_line; eauto |].
    left. auto.
Qed.

(** ** Nothing to deliver *)

Lemma process_empty_fetch env d rule w :
  get_str d "type" = Some "email" ->
  validate_email_configuration d = inr rule ->
  fst (AlertQueue.fetch_alerts (groups rule) (alert_queue w)) = [] ->
  _process_configuration env (PyDict d) w =
    (inr tt,
     mkWorld (alert_queue w) (events w ++ [EvFetch (groups rule) []])
       (stdout w) (bigquery w)).
Proof.
  intros T V F.
  unfold _process_configuration, bind, lift, type_of_rule. rewrite T.
  cbv beta iota. rewrite String.eqb_refl.
  rewrite (process_valid_rule env d rule w V).
  destruct (AlertQueue.fetch_alerts (groups rule) (alert_queue w))
    as [alerts rest] eqn:E.
  cbn [fst] in F. subst alerts.
  apply (dispatch_alerts_empty env rule w rest E).
Qed.

(** On an empty queue a list of valid e-mail rules is processed to the end:
    each rule fetches nothing and is reported as done. *)
Lemma run_configurations_empty_queue env rules :
  Forall valid_email_rule rules ->
  forall w,
    alert_queue w = [] ->
    exists new,
      run_configurations env rules w =
        (inr tt,
         mkWorld [] (events w ++ new)
           (stdout w ++ repeat " - OK" (length rules)) (bigquery w))
      /\ Forall is_empty_fetch new.
Proof.
  induction 1 as [| configuration rest (d & rule & -> & T & V) _ IH]; intros w Q.
  - exists []. cbn. rewrite !app_nil_r, <- Q. now destruct w.
  - rewrite run_configurations_step.
    rewrite (process_empty_fetch env d rule w T V)
      by (rewrite Q; reflexivity).
    cbn [alert_queue events stdout bigquery].
    match goal with
    | |- context [run_configurations env rest ?w2] =>
        destruct (IH w2) as (new & -> & E); [exact Q |]
    end.
    cbn [alert_queue events stdout bigquery].
    exists (EvFetch (groups rule) [] :: new).
    rewrite <- !app_assoc. split; [reflexivity |].
    constructor; [now exists (groups rule) | exact E].
Qed.

Lemma run_empty_queue env module_configuration w :
  Forall valid_email_rule (configured_rules module_configuration) ->
  alert_queue w = [] ->
  exists w1 new,
    run env module_configuration w = (inr tt, w1)
    /\ alert_queue w1 = []
    /\ events w1 = events w ++ new
    /\ Forall is_empty_fetch new
    /\ stdout w1 =
         stdout w
           ++ running_line
              :: repeat " - OK" (length (configured_rules module_configuration))
           ++ [completed_line env w w1].
Proof.
  intros Hv Q. rewrite run_unfold.
  match goal with
  | |- context [run_configurations env ?l ?w0] =>
      destruct (run_configurations_empty_queue env l Hv w0 Q) as (new & -> & E)
  end.
  cbn [alert_queue events stdout bigquery].
  eexists _, new. split; [reflexivity |].
  cbn [alert_queue events stdout]. rewrite <- !app_assoc.
  repeat split; auto.
Qed.

(** C7.  A valid e-mail rule whose fetch returns nothing is reported with
    [" - OK"]: the only call made is the fetch, no log file is written,
    nothing is sent, no exception is raised and the queue is as before.
    Hence, on an empty queue, two runs in a row over valid e-mail rules both
    end normally with one [" - OK"] per rule, leave the queue empty and make
    no call other than fetches that find nothing. *)
Theorem empty_fetch_is_noop env :
  (forall d rule w,
     get_str d "type" = Some "email" ->
     validate_email_configuration d = inr rule ->
     fst (AlertQueue.fetch_alerts (groups rule) (alert_queue w)) = [] ->
     run_configurations env [PyDict d] w =
       (inr tt,
        mkWorld (alert_queue w) (events w ++ [EvFetch (groups rule) []])
          (stdout w ++ [" - OK"]) (bigquery w)))
  /\ (forall module_configuration w,
        Forall valid_email_rule (configured_rules module_configuration) ->
        alert_queue w = [] ->
        exists w1 w2 new1 new2,
          run env module_configuration w = (inr tt, w1)
          /\ run env module_configuration w1 = (inr tt, w2)
          /\ stdout w1 =
               stdout w
                 ++ running_line
                    :: repeat " - OK"
                         (length (configured_rules module_configuration))
                 ++ [completed_line env w w1]
          /\ stdout w2 =
               stdout w1
                 ++ running_line
                    :: repeat " - OK"
                         (length (configured_rules module_configuration))
                 ++ [completed_line env w1 w2]
          /\ alert_queue w1 = [] /\ alert_queue w2 = []
          /\ events w1 = events w ++ new1
          /\ events w2 = events w1 ++ new2
          /\ Forall is_empty_fetch (new1 ++ new2)).
Proof.
  split.
  - intros d rule w T V F.
    rewrite run_configurations_step.
    rewrite (process_empty_fetch env d rule w T V F). reflexivity.
  - intros module_configuration w Hv Q.
    destruct (run_empty_queue env module_configuration w Hv Q)
      as (w1 & new1 & R1 & Q1 & E1 & F1 & S1).
    destruct (run_empty_queue env module_configuration w1 Hv Q1)
      as (w2 & new2 & R2 & Q2 & E2 & F2 & S2).
    exists w1, w2, new1, new2.
    repeat (split; [assumption |]).
    apply Forall_app. now split.
Qed.

Lemma empty_fetch_is_noop_witness :
  run_configurations (sample_env None) [PyDict sample_rule]
    (sample_world other_queue) =
    (inr tt,
     mkWorld other_queue ([] ++ [EvFetch [PyStr "g1"] []]) ([] ++ [" - OK"])
       false)
  /\ exists w1 w2 new1 new2,
       run (sample_env None)
         (sample_module [PyDict sample_rule; PyDict rule_both_templates])
         (sample_world []) = (inr tt, w1)
       /\ run (sample_env None)
            (sample_module [PyDict sample_rule; PyDict rule_both_templates])
            w1 = (inr tt, w2)
       /\ stdout w1 =
            [] ++ running_line :: repeat " - OK" 2
               ++ [completed_line (sample_env None) (sample_world []) w1]
       /\ stdout w2 =
            stdout w1 ++ running_line :: repeat " - OK" 2
               ++ [completed_line (sample_env None) w1 w2]
       /\ alert_queue w1 = [] /\ alert_queue w2 = []
       /\ events w1 = [] ++ new1
       /\ events w2 = events w1 ++ new2
       /\ Forall is_empty_fetch (new1 ++ new2).
Proof.
  split.
  - apply (proj1 (empty_fetch_is_noop (sample_env None)) sample_rule
             sample_email_rule (sample_world other_queue));
      reflexivity.
  - apply (proj2 (empty_fetch_is_noop (sample_env None))
             (sample_module [PyDict sample_rule; PyDict rule_both_templates])
             (sample_world [])).
    + repeat constructor.
      * exists sample_rule, sample_email_rule. repeat split; reflexivity.
      * exists rule_both_templates, both_templates_email_rule.
        repeat split; reflexivity.
    + reflexivity.
Defined.

(** * Further properties of the module *)

(** ** Outcomes of a delivery *)

Lemma outcome_none_connected env w rule alerts :
  transport_outcome env w rule alerts = None ->
  connected env w rule alerts = true.
Proof.
  unfold transport_outcome, connected.
  destruct (connect_outcome env _ _); [discriminate | reflexivity].
Qed.

Lemma not_connected_outcome env w rule alerts :
  connected env w rule alerts = false ->
  exists e, transport_outcome env w rule alerts = Some e.
Proof.
  unfold transport_outcome, connected.
  destruct (connect_outcome env _ _) as [e |]; [eauto | discriminate].
Qed.

Lemma attempt_requeues env rule w alerts :
  requeues (log_events env w rule alerts ++ transport_events env w rule alerts) = [].
Proof.
  unfold transport_events. now destruct (connected env w rule alerts).
Qed.

(** X1.  When the transport raises nothing, the rule ends normally: the
    fetched alerts are not put back (no requeue call, the queue is what the
    fetch left), exactly one send was made, and nothing was printed by the
    processing itself. *)
Theorem delivered_alerts_stay_consumed env configuration rule w alerts rest :
  validate_email_configuration configuration = inr rule ->
  AlertQueue.fetch_alerts (groups rule) (alert_queue w) = (alerts, rest) ->
  alerts <> [] ->
  transport_outcome env w rule alerts = None ->
  exists w',
    _process_email_configuration env configuration w = (inr tt, w')
    /\ alert_queue w' = rest
    /\ requeues (events w') = requeues (events w)
    /\ sends (events w') =
         sends (events w)
           ++ [(rule_dispatcher rule, attempted_call env w rule alerts)]
    /\ stdout w' = stdout w.
Proof.
  intros V F Hne T.
  pose proof (attempt_sends env rule w alerts rest F Hne) as Hs.
  rewrite (outcome_none_connected _ _ _ _ T) in Hs.
  rewrite (process_valid_rule env configuration rule w V).
  rewrite (dispatch_alerts_attempt env rule w alerts rest F Hne), T in *.
  cbv zeta in *. eexists. split; [reflexivity |].
  cbn [alert_queue events stdout snd] in *.
  repeat split; auto.
  rewrite !app_assoc, requeues_app, <- app_assoc, requeues_app, attempt_requeues.
  cbn. now rewrite !app_nil_r.
Qed.

Lemma delivered_alerts_stay_consumed_witness :
  exists w',
    _process_email_configuration (sample_env None) sample_rule
      (sample_world mixed_queue) = (inr tt, w')
    /\ alert_queue w' = other_queue
    /\ requeues (events w') = []
    /\ sends (events w') =
         [] ++ [(rule_dispatcher sample_email_rule,
                 attempted_call (sample_env None) (sample_world mixed_queue)
                   sample_email_rule sample_queue)]
    /\ stdout w' = [].
Proof.
  apply (delivered_alerts_stay_consumed (sample_env None) sample_rule
           sample_email_rule (sample_world mixed_queue) sample_queue
           other_queue);
    solve [reflexivity | discriminate].
Defined.

(** X2.  An exception of the transport that is neither a [ConnectionError]
    nor a [DispatcherException] is not handled: it leaves the processing as
    it is, no requeue call is made and the fetched alerts stay out of the
    queue. *)
Theorem unhandled_transport_error_skips_requeue
    env configuration rule w alerts rest cls text :
  validate_email_configuration configuration = inr rule ->
  AlertQueue.fetch_alerts (groups rule) (alert_queue w) = (alerts, rest) ->
  alerts <> [] ->
  transport_outcome env w rule alerts = Some (OtherError cls text) ->
  exists w',
    _process_email_configuration env configuration w =
      (inl (Raised (OtherError cls text)), w')
    /\ alert_queue w' = rest
    /\ requeues (events w') = requeues (events w).
Proof.
  intros V F Hne T.
  rewrite (process_valid_rule env configuration rule w V).
  rewrite (dispatch_alerts_attempt env rule w alerts rest F Hne), T.
  cbv zeta. cbn [delivery_error]. eexists. split; [reflexivity |].
  cbn [alert_queue events]. split; [reflexivity |].
  rewrite !app_assoc, requeues_app, <- app_assoc, requeues_app, attempt_requeues.
  cbn. now rewrite !app_nil_r.
Qed.

Lemma unhandled_transport_error_skips_requeue_witness :
  exists w',
    _process_email_configuration
      (sample_env (Some (OtherError "TimeoutError" "timed out"))) sample_rule
      (sample_world mixed_queue) =
      (inl (Raised (OtherError "TimeoutError" "timed out")), w')
    /\ alert_queue w' = other_queue
    /\ requeues (events w') = [].
Proof.
  apply (unhandled_transport_error_skips_requeue
           (sample_env (Some (OtherError "TimeoutError" "timed out")))
           sample_rule sample_email_rule (sample_world mixed_queue)
           sample_queue other_queue "TimeoutError" "timed out");
    solve [reflexivity | discriminate].
Defined.

(** X3.  For a non-empty batch, whatever the transport does, the trace of
    the processing is: the fetch, the log file opened and flushed with its
    full content, the opening of the transport, then only sends, the
    closing of the transport and requeues, and last the removal of that log
    file.  The file is thus complete before the transport is contacted, is
    still there when the alerts are put back, and is always removed. *)
Theorem log_file_scoped env configuration rule w alerts rest :
  validate_email_configuration configuration = inr rule ->
  AlertQueue.fetch_alerts (groups rule) (alert_queue w) = (alerts, rest) ->
  alerts <> [] ->
  exists steps,
    events (snd (_process_email_configuration env configuration w)) =
      events w
        ++ [EvFetch (groups rule) alerts;
            EvLogOpened (log_name env w rule alerts);
            EvLogFlushed (log_name env w rule alerts)
              (write_alerts env alerts EmptyString);
            EvConnect (rule_dispatcher rule)]
        ++ steps
        ++ [EvLogRemoved (log_name env w rule alerts)]
    /\ Forall is_delivery_step steps.
Proof.
  intros V F Hne.
  rewrite (process_valid_rule env configuration rule w V).
  destruct (attempt_events env rule w alerts rest F Hne) as (tail & -> & T).
  unfold log_events, transport_events.
  destruct (connected env w rule alerts), T as [-> | ->].
  - exists [EvSend (rule_dispatcher rule) (attempted_call env w rule alerts);
            EvClose (rule_dispatcher rule)].
    split; [reflexivity | repeat constructor].
  - exists [EvSend (rule_dispatcher rule) (attempted_call env w rule alerts);
            EvClose (rule_dispatcher rule); EvRequeue alerts].
    split; [reflexivity | repeat constructor].
  - exists []. split; [reflexivity | constructor].
  - exists [EvRequeue alerts]. split; [reflexivity | repeat constructor].
Qed.

Lemma log_file_scoped_witness :
  exists steps,
    events (snd (_process_email_configuration
                   (sample_env (Some (DispatcherException "550 rejected")))
                   sample_rule (sample_world mixed_queue))) =
      [] ++ [EvFetch [PyStr "g1"] sample_queue;
             EvLogOpened "/tmp/tmpq3x8.log";
             EvLogFlushed "/tmp/tmpq3x8.log"
               (write_alerts (sample_env (Some (DispatcherException "550 rejected")))
                  sample_queue EmptyString);
             EvConnect (rule_dispatcher sample_email_rule)]
         ++ steps
         ++ [EvLogRemoved "/tmp/tmpq3x8.log"]
    /\ Forall is_delivery_step steps.
Proof.
  apply (log_file_scoped (sample_env (Some (DispatcherException "550 rejected")))
           sample_rule sample_email_rule (sample_world mixed_queue)
           sample_queue other_queue);
    solve [reflexivity | discriminate].
Defined.

(** X4.  With a single usable template the matching single-template send is
    the one made: [send_text_email] with the text path when [templateHtml]
    is absent or is not a string, [send_html_email] with the HTML path when
    [templateText] is absent or is not a string. *)
Theorem single_template_send env configuration rule w alerts rest :
  validate_email_configuration configuration = inr rule ->
  AlertQueue.fetch_alerts (groups rule) (alert_queue w) = (alerts, rest) ->
  alerts <> [] ->
  connected env w rule alerts = true ->
  (forall text,
     get_str configuration "templateHtml" = None ->
     get_str configuration "templateText" = Some text ->
     sends (events (snd (_process_email_configuration env configuration w))) =
       sends (events w)
         ++ [(rule_dispatcher rule,
              send_text_email (from_email rule) (to_email rule) (subject rule)
                (Some text) (sent_variables rule alerts)
                [("alerts.log", log_name env w rule alerts)])])
  /\ (forall html,
        get_str configuration "templateHtml" = Some html ->
        get_str configuration "templateText" = None ->
        sends (events (snd (_process_email_configuration env configuration w))) =
          sends (events w)
            ++ [(rule_dispatcher rule,
                 send_html_email (from_email rule) (to_email rule) (subject rule)
                   html (sent_variables rule alerts)
                   [("alerts.log", log_name env w rule alerts)])]).
Proof.
  intros V F Hne C.
  destruct (validate_accepts configuration rule V) as (_ & Eh & Et & _).
  rewrite (process_valid_rule env configuration rule w V).
  rewrite (attempt_sends env rule w alerts rest F Hne), C.
  unfold attempted_call, send_call. rewrite Eh, Et.
  split; [intros text -> -> | intros html -> ->]; reflexivity.
Qed.

Lemma single_template_send_witness :
  sends (events (snd (_process_email_configuration (sample_env None)
                        sample_rule (sample_world sample_queue)))) =
    [] ++ [(rule_dispatcher sample_email_rule,
            send_text_email "dawis@example.org" (PyStr "ops@example.org")
              "Alerts" (Some "alerts.txt")
              (sent_variables sample_email_rule sample_queue)
              [("alerts.log", "/tmp/tmpq3x8.log")])]
  /\ sends (events (snd (_process_email_configuration (sample_env None)
                           rule_html_only (sample_world sample_queue)))) =
       [] ++ [(rule_dispatcher html_only_email_rule,
               send_html_email "dawis@example.org" (PyStr "ops@example.org")
                 "Alerts" "alerts.html"
                 (sent_variables html_only_email_rule sample_queue)
                 [("alerts.log", "/tmp/tmpq3x8.log")])].
Proof.
  split.
  - apply (proj1 (single_template_send (sample_env None) sample_rule
                    sample_email_rule (sample_world sample_queue) sample_queue []
                    eq_refl eq_refl ltac:(discriminate) eq_refl)
             "alerts.txt");
      reflexivity.
  - apply (proj2 (single_template_send (sample_env None) rule_html_only
                    html_only_email_rule (sample_world sample_queue)
                    sample_queue [] eq_refl eq_refl ltac:(discriminate) eq_refl)
             "alerts.html");
      reflexivity.
Defined.

(** X5.  When the transport cannot be opened, no send operation is made and
    the rule does not end normally. *)
Theorem no_send_without_connection env configuration rule w alerts rest :
  validate_email_configuration configuration = inr rule ->
  AlertQueue.fetch_alerts (groups rule) (alert_queue w) = (alerts, rest) ->
  alerts <> [] ->
  connected env w rule alerts = false ->
  sends (events (snd (_process_email_configuration env configuration w))) =
    sends (events w)
  /\ exists e, fst (_process_email_configuration env configuration w) = inl e.
Proof.
  intros V F Hne C.
  rewrite (process_valid_rule env configuration rule w V). split.
  - rewrite (attempt_sends env rule w alerts rest F Hne), C. apply app_nil_r.
  - destruct (not_connected_outcome env w rule alerts C) as [e T].
    rewrite (dispatch_alerts_attempt env rule w alerts rest F Hne), T.
    cbv zeta. destruct (delivery_error (Raised e)); cbn [fst]; eauto.
Qed.

Lemma no_send_without_connection_witness :
  sends (events (snd (_process_email_configuration
                        (refusing_env (ConnectionError "refused"))
                        sample_rule (sample_world sample_queue)))) = []
  /\ exists e,
       fst (_process_email_configuration
              (refusing_env (ConnectionError "refused"))
              sample_rule (sample_world sample_queue)) = inl e.
Proof.
  apply (no_send_without_connection (refusing_env (ConnectionError "refused"))
           sample_rule sample_email_rule (sample_world sample_queue)
           sample_queue []);
    solve [reflexivity | discriminate].
Defined.

(** X6.  The only requeue the processing of a rule can make is one call
    with the whole batch it fetched, and it makes it only when it ends with
    a [ConfigurationInvalidError]; in every other case the requeue calls
    are those made before. *)
Theorem requeue_only_whole_batch env configuration w :
  requeues (events (snd (_process_email_configuration env configuration w))) =
    requeues (events w)
  \/ exists rule alerts rest text,
       validate_email_configuration configuration = inr rule
       /\ AlertQueue.fetch_alerts (groups rule) (alert_queue w) = (alerts, rest)
       /\ fst (_process_email_configuration env configuration w) =
            inl (ConfigurationInvalidError text)
       /\ requeues (events (snd (_process_email_configuration env configuration w))) =
            requeues (events w) ++ [alerts].
Proof.
  destruct (validate_email_configuration configuration) as [e | rule] eqn:V.
  - left. now rewrite (invalid_rule_no_effect env configuration e w V).
  - rewrite (process_valid_rule env configuration rule w V).
    destruct (AlertQueue.fetch_alerts (groups rule) (alert_queue w))
      as [alerts rest] eqn:F.
    destruct alerts as [| a alerts].
    + left. rewrite (dispatch_alerts_empty env rule w rest F). cbn [snd events].
      rewrite requeues_app. apply app_nil_r.
    + assert (Hne : a :: alerts <> []) by discriminate.
      rewrite (dispatch_alerts_attempt env rule w _ rest F Hne). cbv zeta.
      destruct (transport_outcome env w rule (a :: alerts)) as [e |];
        [destruct (delivery_error (Raised e)) as [error |] |];
        cbn [fst snd events].
      * right. exists rule, (a :: alerts), rest, (str_of_error error).
        repeat split; auto.
        rewrite !app_assoc, requeues_app, <- app_assoc, requeues_app,
          attempt_requeues.
        cbn. now rewrite app_nil_r.
      * left.
        rewrite !app_assoc, requeues_app, <- app_assoc, requeues_app,
          attempt_requeues.
        cbn. now rewrite !app_nil_r.
      * left.
        rewrite !app_assoc, requeues_app, <- app_assoc, requeues_app,
          attempt_requeues.
        cbn. now rewrite !app_nil_r.
Qed.

(** ** What validation reads *)

(** X7.  An accepted rule holds exactly what the mapping holds: the four
    smtp entries with their types, the subject and the sender as strings,
    the recipient as the string or the list found under [toEmail]; the
    encryption is the string under [encryption] and none when that entry is
    absent or is not a string.  Nothing is defaulted or converted. *)
Theorem accepted_rule_reads_mapping configuration rule :
  validate_email_configuration configuration = inr rule ->
  exists smtp,
    dict_get "smtp" configuration = Some (PyDict smtp)
    /\ dict_get "host" smtp = Some (PyStr (host rule))
    /\ dict_get "port" smtp = Some (PyInt (port rule))
    /\ dict_get "user" smtp = Some (PyStr (user rule))
    /\ dict_get "password" smtp = Some (PyStr (password rule))
    /\ encryption rule = get_str smtp "encryption"
    /\ dict_get "subject" configuration = Some (PyStr (subject rule))
    /\ dict_get "fromEmail" configuration = Some (PyStr (from_email rule))
    /\ dict_get "toEmail" configuration = Some (to_email rule)
    /\ ((exists address, to_email rule = PyStr address)
        \/ (exists addresses, to_email rule = PyList addresses)).
Proof.
  unfold validate_email_configuration, get_dict, get_str, get_int,
    get_str_or_list, get_list.
  destruct (dict_get "smtp" configuration) as [[| | | | | | smtp |] |];
    cbn; try discriminate.
  destruct (dict_get "host" smtp) as [[] |] eqn:Eh; cbn; try discriminate.
  destruct (dict_get "port" smtp) as [[] |] eqn:Ep; cbn; try discriminate.
  destruct (dict_get "user" smtp) as [[] |] eqn:Eu; cbn; try discriminate.
  destruct (dict_get "password" smtp) as [[] |] eqn:Ew; cbn; try discriminate.
  destruct (dict_get "subject" configuration) as [[] |]; cbn; try discriminate.
  destruct (dict_get "fromEmail" configuration) as [[] |]; cbn; try discriminate.
  destruct (dict_get "toEmail" configuration) as [[] |]; cbn; try discriminate;
    destruct (dict_get "templateHtml" configuration) as [[] |];
    destruct (dict_get "templateText" configuration) as [[] |];
    cbn; try discriminate;
    destruct (dict_get "groups" configuration) as [[] |]; cbn; try discriminate;
    intros H; injection H as <-; exists smtp; cbn;
    repeat (split; [first [reflexivity | assumption] |]); eauto.
Qed.

Lemma accepted_rule_reads_mapping_witness :
  exists smtp,
    dict_get "smtp" sample_rule = Some (PyDict smtp)
    /\ dict_get "host" smtp = Some (PyStr "smtp.example.org")
    /\ dict_get "port" smtp = Some (PyInt 587)
    /\ dict_get "user" smtp = Some (PyStr "monitor")
    /\ dict_get "password" smtp = Some (PyStr "secret")
    /\ None = get_str smtp "encryption"
    /\ dict_get "subject" sample_rule = Some (PyStr "Alerts")
    /\ dict_get "fromEmail" sample_rule = Some (PyStr "dawis@example.org")
    /\ dict_get "toEmail" sample_rule = Some (PyStr "ops@example.org")
    /\ ((exists address, PyStr "ops@example.org" = PyStr address)
        \/ (exists addresses, PyStr "ops@example.org" = PyList addresses)).
Proof.
  apply (accepted_rule_reads_mapping sample_rule sample_email_rule).
  reflexivity.
Defined.

(** X8.  The port has to be an [int] itself: with a usable smtp mapping and
    host, a port entry of any other type, a boolean or a numeric string
    included, is reported as a missing port. *)
Theorem port_must_be_int configuration smtp name v :
  dict_get "smtp" configuration = Some (PyDict smtp) ->
  dict_get "host" smtp = Some (PyStr name) ->
  dict_get "port" smtp = Some v ->
  (forall z, v <> PyInt z) ->
  validate_email_configuration configuration =
    inl (ConfigurationMissingError "Missing port in alert mail smtp configuration").
Proof.
  intros Hs Hh Hp Hv.
  unfold validate_email_configuration, get_dict, get_str, get_int.
  rewrite Hs. cbn. rewrite Hh. cbn. rewrite Hp.
  destruct v; try reflexivity. now elim (Hv z).
Qed.

Lemma port_must_be_int_witness :
  validate_email_configuration rule_port_true =
    inl (ConfigurationMissingError "Missing port in alert mail smtp configuration").
Proof.
  apply (port_must_be_int rule_port_true
           [("host", PyStr "smtp.example.org"); ("port", PyBool true);
            ("user", PyStr "monitor"); ("password", PyStr "secret")]
           "smtp.example.org" (PyBool true));
    solve [reflexivity | discriminate].
Defined.

(** X9.  Validation looks at eight keys of the rule mapping and at nothing
    else: two mappings that agree on [smtp], [subject], [fromEmail],
    [toEmail], [templateHtml], [templateText], [templateVariables] and
    [groups] are validated, and then processed, alike.  Unknown keys are not
    rejected. *)
Theorem validation_reads_only_rule_keys env c1 c2 w :
  (forall k, In k email_rule_keys -> dict_get k c1 = dict_get k c2) ->
  validate_email_configuration c1 = validate_email_configuration c2
  /\ _process_email_configuration env c1 w = _process_email_configuration env c2 w.
Proof.
  intros H.
  assert (V : validate_email_configuration c1 = validate_email_configuration c2).
  { unfold validate_email_configuration, get_dict, get_str, get_int,
      get_str_or_list, get_list.
    rewrite (H "smtp"), (H "subject"), (H "fromEmail"), (H "toEmail"),
      (H "templateHtml"), (H "templateText"), (H "templateVariables"),
      (H "groups");
      try reflexivity; cbn; tauto. }
  split; [exact V |].
  unfold _process_email_configuration. now rewrite V.
Qed.

Lemma validation_reads_only_rule_keys_witness :
  validate_email_configuration (("comment", PyStr "night shift") :: sample_rule) =
    validate_email_configuration sample_rule
  /\ _process_email_configuration (sample_env None)
       (("comment", PyStr "night shift") :: sample_rule)
       (sample_world sample_queue) =
     _process_email_configuration (sample_env None) sample_rule
       (sample_world sample_queue).
Proof.
  apply (validation_reads_only_rule_keys (sample_env None)
           (("comment", PyStr "night shift") :: sample_rule) sample_rule
           (sample_world sample_queue)).
  intros k Hk. cbn in Hk.
  repeat (destruct Hk as [<- | Hk]; [reflexivity |]). contradiction.
Defined.

(** ** The rule list *)

(** An element of the rule list either fails before anything is done, or is
    a mapping of type ["email"] that passes validation and goes on to the
    fetch. *)
Lemma process_configuration_cases env configuration w :
  (exists e, _process_configuration env configuration w = (inl e, w))
  \/ (exists rule,
        accepted_as configuration rule
        /\ _process_configuration env configuration w = dispatch_alerts env rule w).
Proof.
  unfold _process_configuration, bind, lift, raise.
  destruct (type_of_rule configuration) as [e | [alert_type |]] eqn:T;
    cbv beta iota; [eauto | | eauto].
  destruct (String.eqb_spec "email" alert_type) as [<- | Hne]; [| eauto].
  destruct configuration as [| | | | | | d |]; eauto.
  cbn in T. injection T as T.
  destruct (validate_email_configuration d) as [e | rule] eqn:V.
  - left. exists e. now apply invalid_rule_no_effect.
  - right. exists rule. split; [exists d; auto |].
    now apply process_valid_rule.
Qed.

(** X10.  An element of the rule list that is not a mapping (a string, a
    list, a number, a boolean, [None]) makes the processing fail with a
    [TypeError] or with the error of a missing type, before anything is
    fetched or sent. *)
Theorem non_mapping_rule_fails env configuration w :
  (forall d, configuration <> PyDict d) ->
  (forall a, configuration <> PyAlert a) ->
  _process_configuration env configuration w = (inl TypeError, w)
  \/ _process_configuration env configuration w =
       (inl (ConfigurationMissingError missing_type_text), w).
Proof.
  intros Hd Ha.
  unfold _process_configuration, bind, lift, raise, type_of_rule.
  destruct configuration as [| | | | s | items | d | a]; auto.
  - destruct (str_contains "type" s); auto.
  - destruct (existsb (str_eq "type") items); auto.
  - now elim (Hd d).
Qed.

Lemma non_mapping_rule_fails_witness :
  _process_configuration (sample_env None) (PyStr "prototype")
    (sample_world sample_queue) = (inl TypeError, sample_world sample_queue)
  \/ _process_configuration (sample_env None) (PyStr "prototype")
       (sample_world sample_queue) =
       (inl (ConfigurationMissingError missing_type_text),
        sample_world sample_queue).
Proof.
  apply (non_mapping_rule_fails (sample_env None) (PyStr "prototype")
           (sample_world sample_queue));
    discriminate.
Defined.

(** X11.  The loop over the rules composes: processing a list followed by
    another is processing the first and, if no rule of it raised, the
    second from the world the first left; when a rule of the first raises,
    that exception is the outcome and the rules after it are not touched. *)
Theorem run_configurations_app env rules more w :
  run_configurations env (rules ++ more) w =
    match run_configurations env rules w with
    | (inr _, w1) => run_configurations env more w1
    | (inl e, w1) => (inl e, w1)
    end.
Proof.
  revert w. induction rules as [| configuration rest IH]; intros w.
  - reflexivity.
  - rewrite <- app_comm_cons, !run_configurations_step.
    destruct (_process_configuration env configuration w) as [[e | []] w1].
    + destruct e; try reflexivity. apply IH.
    + apply IH.
Qed.

(** X12.  Without a rule list (no [configurations] entry in the settings,
    an entry that is not a list, or an empty list) a run prints the header
    and the completion line, raises nothing and calls no collaborator. *)
Theorem run_without_rules env module_configuration w :
  get_list (settings module_configuration) "configurations" = None
  \/ get_list (settings module_configuration) "configurations" = Some [] ->
  run env module_configuration w =
    (inr tt,
     mkWorld (alert_queue w) (events w)
       (stdout w ++ [running_line; completed_line env w w])
       (if String.eqb "bigquery" (database module_configuration)
        then true else bigquery w)).
Proof.
  intros H. rewrite run_unfold.
  assert (R : configured_rules module_configuration = []).
  { unfold configured_rules. now destruct H as [-> | ->]. }
  rewrite R. cbn. now rewrite <- app_assoc.
Qed.

Lemma run_without_rules_witness :
  run (sample_env None)
    (mkModuleConfiguration "bigquery" [("configurations", PyStr "none")])
    (sample_world sample_queue) =
    (inr tt,
     mkWorld sample_queue []
       ([] ++ [running_line;
               completed_line (sample_env None) (sample_world sample_queue)
                 (sample_world sample_queue)])
       true).
Proof.
  apply (run_without_rules (sample_env None)
           (mkModuleConfiguration "bigquery" [("configurations", PyStr "none")])
           (sample_world sample_queue)).
  left. reflexivity.
Defined.

(** X13.  After a run, however it ends, the BigQuery handle is bound when
    the configured database is ["bigquery"] and is otherwise what it was:
    no rule touches it. *)
Theorem bigquery_bound_by_database env module_configuration w :
  bigquery (snd (run env module_configuration w)) =
    if String.eqb "bigquery" (database module_configuration)
    then true else bigquery w.
Proof.
  rewrite run_unfold.
  match goal with
  | |- context [run_configurations env ?l ?w0] =>
      destruct (run_configurations_outcome env l w0) as (n & _ & B & _);
      destruct (run_configurations env l w0) as [[e | []] w1]
  end; exact B.
Qed.

(** A rule sends at most one e-mail. *)
Lemma process_configuration_sends env configuration w :
  exists new,
    sends (events (snd (_process_configuration env configuration w))) =
      sends (events w) ++ new
    /\ (length new <= 1)%nat.
Proof.
  destruct (process_configuration_cases env configuration w)
    as [(e & ->) | (rule & _ & ->)].
  - exists []. cbn. split; [now rewrite app_nil_r | lia].
  - destruct (AlertQueue.fetch_alerts (groups rule) (alert_queue w))
      as [alerts rest] eqn:F.
    destruct alerts as [| a alerts].
    + rewrite (dispatch_alerts_empty env rule w rest F). exists [].
      cbn [snd events]. rewrite sends_app. cbn. split; [reflexivity | lia].
    + assert (Hne : a :: alerts <> []) by discriminate.
      rewrite (attempt_sends env rule w _ rest F Hne).
      eexists. split; [reflexivity |].
      destruct (connected env w rule (a :: alerts)); cbn; lia.
Qed.

Lemma run_configurations_sends env rules :
  forall w,
  exists new,
    sends (events (snd (run_configurations env rules w))) = sends (events w) ++ new
    /\ (length new <= length rules)%nat.
Proof.
  induction rules as [| configuration rest IH]; intros w.
  - exists []. cbn. split; [now rewrite app_nil_r | lia].
  - rewrite run_configurations_step.
    destruct (process_configuration_sends env configuration w) as (new1 & S1 & L1).
    destruct (_process_configuration env configuration w) as [[e | []] w1];
      cbn [snd] in S1.
    + destruct e;
        try (exists new1; cbn [snd length]; split; [exact S1 | lia]);
        match goal with
        | |- context [run_configurations env rest ?w2] =>
            destruct (IH w2) as (new2 & S2 & L2)
        end;
        cbn [events] in S2; exists (new1 ++ new2);
        rewrite S2, S1, <- app_assoc, length_app; cbn [length];
        split; [reflexivity | lia].
    + match goal with
      | |- context [run_configurations env rest ?w2] =>
          destruct (IH w2) as (new2 & S2 & L2)
      end.
      cbn [events] in S2. exists (new1 ++ new2).
      rewrite S2, S1, <- app_assoc, length_app. cbn [length].
      split; [reflexivity | lia].
Qed.

(** X14.  A run sends at most one e-mail per configured rule, however the
    rules end. *)
Theorem at_most_one_send_per_rule env module_configuration w :
  exists new,
    sends (events (snd (run env module_configuration w))) = sends (events w) ++ new
    /\ (length new <= length (configured_rules module_configuration))%nat.
Proof.
  rewrite run_unfold.
  match goal with
  | |- context [run_configurations env ?l ?w0] =>
      destruct (run_configurations_sends env l w0) as (new & S & L);
      destruct (run_configurations env l w0) as [[e | []] w1]
  end; exists new; auto.
Qed.

Lemma process_configuration_normal env configuration w w' :
  _process_configuration env configuration w = (inr tt, w') ->
  exists rule,
    accepted_as configuration rule
    /\ fetches (events w') = fetches (events w) ++ [groups rule].
Proof.
  intros P.
  destruct (process_configuration_cases env configuration w)
    as [(e & E) | (rule & A & E)]; [congruence |].
  exists rule. split; [exact A |].
  pose proof (attempt_fetches env rule w) as F.
  rewrite <- E, P in F. exact F.
Qed.

Lemma run_configurations_normal env rules :
  forall w,
    fst (run_configurations env rules w) = inr tt ->
    exists accepted,
      Forall2 accepted_as rules accepted
      /\ fetches (events (snd (run_configurations env rules w))) =
           fetches (events w) ++ map groups accepted.
Proof.
  induction rules as [| configuration rest IH]; intros w.
  - intros _. exists []. split; [constructor |]. cbn. now rewrite app_nil_r.
  - rewrite run_configurations_step.
    destruct (process_configuration_outcome env configuration w) as (N & _).
    destruct (_process_configuration env configuration w) as [[e | []] w1] eqn:P.
    + destruct e; cbn [fst] in *; congruence.
    + intros R.
      destruct (process_configuration_normal env configuration w w1 P)
        as (rule & A & F1).
      match type of R with
      | context [run_configurations env rest ?w2] =>
          destruct (IH w2 R) as (accepted & A2 & F2)
      end.
      cbn [events] in F2.
      exists (rule :: accepted). split; [now constructor |].
      rewrite F2, F1, <- app_assoc. reflexivity.
Qed.

(** X15.  A run that ends normally has found every element of the rule list
    to be a mapping of type ["email"] that passes validation, and has made
    exactly one fetch per rule, in the order of the list, each for the
    groups of its rule. *)
Theorem normal_end_means_valid_rules env module_configuration w :
  fst (run env module_configuration w) = inr tt ->
  exists accepted,
    Forall2 accepted_as (configured_rules module_configuration) accepted
    /\ fetches (events (snd (run env module_configuration w))) =
         fetches (events w) ++ map groups accepted.
Proof.
  rewrite run_unfold.
  match goal with
  | |- context [run_configurations env ?l ?w0] =>
      pose proof (run_configurations_normal env l w0) as N;
      destruct (run_configurations env l w0) as [[e | []] w1]
  end; cbn [fst snd events] in *; [discriminate |].
  intros _. exact (N eq_refl).
Qed.

Lemma normal_end_means_valid_rules_witness :
  exists accepted,
    Forall2 accepted_as
      (configured_rules
         (sample_module [PyDict sample_rule; PyDict rule_empty_groups]))
      accepted
    /\ fetches (events (snd (run (sample_env None)
                               (sample_module
                                  [PyDict sample_rule; PyDict rule_empty_groups])
                               (sample_world mixed_queue)))) =
         [] ++ map groups accepted.
Proof.
  apply (normal_end_means_valid_rules (sample_env None)
           (sample_module [PyDict sample_rule; PyDict rule_empty_groups])
           (sample_world mixed_queue)).
  reflexivity.
Defined.

(** ** The log file on a line feed host *)

(** X16.  On a host whose line separator is the line feed, for a non-empty
    batch the module writes one log file; its content is, for each fetched
    alert in fetch order, the line [[<isoformat of the date>] <message>],
    followed by [ | <str of data>] exactly when the data is a non-empty
    mapping, followed by the line feed, and nothing else; that file is the
    one attached to the send operation as [alerts.log]. *)
Theorem attachment_on_line_feed_host env configuration rule w alerts rest :
  linesep env = newline ->
  validate_email_configuration configuration = inr rule ->
  AlertQueue.fetch_alerts (groups rule) (alert_queue w) = (alerts, rest) ->
  alerts <> [] ->
  log_files (events (snd (_process_email_configuration env configuration w))) =
    log_files (events w)
      ++ [(log_name env w rule alerts,
           String.concat EmptyString
             (map (fun alert => (spec_log_line env alert ++ linesep env)%string)
                alerts))]
  /\ attachments_of (attempted_call env w rule alerts) =
       [("alerts.log", log_name env w rule alerts)].
Proof.
  intros L V F Hne. split.
  - rewrite (process_valid_rule env configuration rule w V).
    destruct (attempt_events env rule w alerts rest F Hne) as (tail & -> & T).
    rewrite !log_files_app. f_equal.
    assert (C : log_files (log_events env w rule alerts) =
                  [(log_name env w rule alerts, spec_attachment env alerts)]).
    { unfold log_events. cbn.
      now rewrite write_alerts_spec, L, text_layer_line_feed. }
    rewrite C. attempt_cases T.
  - unfold attempted_call, send_call.
    destruct (template_html_path rule), (template_text_path rule); reflexivity.
Qed.

Lemma attachment_on_line_feed_host_witness :
  log_files (events (snd (_process_email_configuration (sample_env None)
                            sample_rule (sample_world sample_queue)))) =
    [] ++ [(log_name (sample_env None) (sample_world sample_queue)
              sample_email_rule sample_queue,
            String.concat EmptyString
              (map (fun alert =>
                      (spec_log_line (sample_env None) alert
                         ++ linesep (sample_env None))%string)
                 sample_queue))]
  /\ attachments_of (attempted_call (sample_env None) (sample_world sample_queue)
                       sample_email_rule sample_queue) =
       [("alerts.log",
         log_name (sample_env None) (sample_world sample_queue)
           sample_email_rule sample_queue)].
Proof.
  apply (attachment_on_line_feed_host (sample_env None) sample_rule
           sample_email_rule (sample_world sample_queue) sample_queue []);
    solve [reflexivity | discriminate].
Defined.
